(** * MovieRec: the user-data schema, its row-level security and the
      signup trigger

    A shallow embedding of the database setup script (tables [profiles],
    [reviews], [user_lists]; their CHECK, UNIQUE, PRIMARY KEY and FOREIGN
    KEY constraints; the row-level-security policies; the grants; the
    [handle_new_user] trigger on [auth.users]).

    A table is the list of its rows.  A statement is a function from the
    database to a [result]: it either commits a new database, or leaves the
    database as it is, because it raised an error or because it found no row
    to act on.  The checks of one statement run in PostgreSQL's order: table
    privilege, row-level security, CHECK constraints, unique indexes,
    foreign keys. *)

From Stdlib Require Import List String Ascii ZArith NArith Bool Lia.
Import ListNotations.

Local Open Scope string_scope.
Local Open Scope list_scope.

(** ** SQL values *)

(** A UUID is an opaque 128-bit number, a timestamp an instant. *)
Definition uuid := N.
Definition timestamptz := Z.

(** How a statement can end without a row.  [AuthorizationDenied] is
    PostgreSQL's insufficient-privilege error: the table privilege is
    missing, or a new row fails a policy's WITH CHECK.  [NotFound] is no
    error of PostgreSQL's: it is the outcome of a statement that names a row
    by its key and finds none to act on (0 rows), either because no row has
    the key or because the policy's USING hides the row from the caller;
    the two cases cannot be told apart. *)
Inductive error : Type :=
| UniqueViolation
| CheckViolation
| ForeignKeyViolation
| AuthorizationDenied
| NotFound.

Inductive result (A : Type) : Type :=
| Ok (a : A)
| Err (e : error).

Arguments Ok {A} a.
Arguments Err {A} e.

Definition bind {A B : Type} (m : result A) (k : A -> result B) : result B :=
  match m with
  | Ok a => k a
  | Err e => Err e
  end.

Notation "x <- m ;; k" := (bind m (fun x => k))
  (at level 61, m at next level, right associativity).
Notation "m ;;; k" := (bind m (fun _ => k))
  (at level 61, right associativity).

(** [guard b e] raises [e] unless [b] holds. *)
Definition guard (b : bool) (e : error) : result unit :=
  if b then Ok tt else Err e.

(** SQL's [=] is three-valued: comparing with NULL gives NULL. *)
Definition sql_eq (a b : option uuid) : option bool :=
  match a, b with
  | Some x, Some y => Some (N.eqb x y)
  | _, _ => None
  end.

(** A policy or WHERE condition lets a row through only when it is true;
    NULL counts as false. *)
Definition is_true (v : option bool) : bool :=
  match v with
  | Some true => true
  | _ => false
  end.

(** [COALESCE(a, b)]. *)
Definition COALESCE {A : Type} (a b : option A) : option A :=
  match a with
  | Some _ => a
  | None => b
  end.

(** The fields of [s] between occurrences of the one-character delimiter
    [delim]; a string without the delimiter is a single field. *)
Fixpoint split_fields (delim : ascii) (s : string) : list string :=
  match s with
  | EmptyString => [EmptyString]
  | String ch rest =>
      if Ascii.eqb ch delim then EmptyString :: split_fields delim rest
      else match split_fields delim rest with
           | [] => [String ch EmptyString]
           | f :: fs => String ch f :: fs
           end
  end.

(** [split_part(s, delim, n)] for [n >= 1]: the [n]-th field, counted from
    1, and the empty string when there are fewer than [n] fields.  Like
    every strict function it is NULL on a NULL string. *)
Definition split_part (s : option string) (delim : ascii) (n : nat) : option string :=
  match s with
  | None => None
  | Some str => Some (nth (n - 1) (split_fields delim str) EmptyString)
  end.

(** A JSON object as stored in a [jsonb] column: its members, each a JSON
    null or the text of its value. *)
Definition jsonb := list (string * option string).

(** [j ->> key]: the member's value as text; NULL when the column is NULL,
    the member is absent, or the member is a JSON null. *)
Definition json_get_text (j : option jsonb) (key : string) : option string :=
  match j with
  | None => None
  | Some members =>
      match find (fun kv => String.eqb (fst kv) key) members with
      | Some (_, v) => v
      | None => None
      end
  end.

(** ** Rows *)

(** The columns of [auth.users] that the script reads. *)
Module AuthUsers.
Record row : Type := mk {
  id : uuid;
  email : option string;
  raw_user_meta_data : option jsonb
}.
End AuthUsers.

Module Profiles.
Record row : Type := mk {
  id : uuid;
  username : option string;
  avatar_url : option string;
  created_at : option timestamptz;
  updated_at : option timestamptz
}.
End Profiles.

(** NOT NULL columns carry a value, nullable ones an [option]. *)
Module Reviews.
Record row : Type := mk {
  id : uuid;
  user_id : uuid;
  media_type : string;
  media_id : string;
  rating : Z;
  review_text : option string;
  created_at : option timestamptz;
  updated_at : option timestamptz
}.
End Reviews.

Module UserLists.
Record row : Type := mk {
  id : uuid;
  user_id : uuid;
  list_type : string;
  media_type : string;
  media_id : string;
  title : string;
  image_url : option string;
  created_at : option timestamptz
}.
End UserLists.

(** ** The database *)

Record db : Type := mkdb {
  auth_users : list AuthUsers.row;
  profiles : list Profiles.row;
  reviews : list Reviews.row;
  user_lists : list UserLists.row
}.

Definition empty_db : db := mkdb [] [] [] [].

Definition set_auth_users (d : db) (l : list AuthUsers.row) : db :=
  mkdb l (profiles d) (reviews d) (user_lists d).
Definition set_profiles (d : db) (l : list Profiles.row) : db :=
  mkdb (auth_users d) l (reviews d) (user_lists d).
Definition set_reviews (d : db) (l : list Reviews.row) : db :=
  mkdb (auth_users d) (profiles d) l (user_lists d).
Definition set_user_lists (d : db) (l : list UserLists.row) : db :=
  mkdb (auth_users d) (profiles d) (reviews d) l.

(** ** Roles, grants and callers *)

Inductive role : Type := anon | authenticated | service_role.
Inductive table : Type := profiles_tbl | reviews_tbl | user_lists_tbl.
Inductive command : Type := SELECT | INSERT | UPDATE | DELETE.

Definition role_eqb (a b : role) : bool :=
  match a, b with
  | anon, anon | authenticated, authenticated | service_role, service_role => true
  | _, _ => false
  end.

Definition table_eqb (a b : table) : bool :=
  match a, b with
  | profiles_tbl, profiles_tbl | reviews_tbl, reviews_tbl
  | user_lists_tbl, user_lists_tbl => true
  | _, _ => false
  end.

Definition command_eqb (a b : command) : bool :=
  match a, b with
  | SELECT, SELECT | INSERT, INSERT | UPDATE, UPDATE | DELETE, DELETE => true
  | _, _ => false
  end.

(** The script's [GRANT ALL ON public.<table> TO <role>] statements. *)
Definition grants : list (table * role) :=
  [ (profiles_tbl, authenticated);
    (reviews_tbl, authenticated);
    (user_lists_tbl, authenticated);
    (profiles_tbl, service_role);
    (reviews_tbl, service_role);
    (user_lists_tbl, service_role) ].

(** Modelled from the spec: the default privileges of the [public] schema,
    which the hosting platform declares and the script does not.  The
    script is written to be run on Supabase, where a table created in
    [public] is granted to [anon], [authenticated] and [service_role]; so a
    caller with no identity holds the table privileges too, and what it
    reaches is decided by the policies alone (the specification has reviews
    read by callers with no identity). *)
Definition default_privileges : list (table * role) :=
  [ (profiles_tbl, anon); (profiles_tbl, authenticated); (profiles_tbl, service_role);
    (reviews_tbl, anon); (reviews_tbl, authenticated); (reviews_tbl, service_role);
    (user_lists_tbl, anon); (user_lists_tbl, authenticated);
    (user_lists_tbl, service_role) ].

(** [ALL] covers every command, so the command does not matter. *)
Definition has_table_privilege (r : role) (t : table) (cmd : command) : bool :=
  existsb (fun g => table_eqb (fst g) t && role_eqb (snd g) r)
    (default_privileges ++ grants).

(** Who issues a statement through the API: a request without an identity
    runs as [anon] and has no [auth.uid()], a signed-in one runs as
    [authenticated] with its identity's id.  The third role,
    [service_role], is the backend's; what the backend issues under it is
    not in the script (the specification has it compute statistics, which
    are reads), so it is not among the callers. *)
Inductive caller : Type :=
| Anon
| Authenticated (uid : uuid).

Definition role_of (c : caller) : role :=
  match c with
  | Anon => anon
  | Authenticated _ => authenticated
  end.

Definition auth_uid (c : caller) : option uuid :=
  match c with
  | Anon => None
  | Authenticated u => Some u
  end.

(** ** Row-level security *)

(** The two conditions the script's policies use: [true], and
    [auth.uid() = id] (on [profiles]) or [auth.uid() = user_id] (on
    [reviews] and [user_lists]), that is, the caller is the row's owner. *)
Inductive qual : Type :=
| qual_true
| qual_uid_is_owner.

Record policy : Type := mkpolicy {
  polname : string;
  polrel : table;
  polcmd : command;
  polqual : option qual;        (* USING *)
  polwithcheck : option qual    (* WITH CHECK *)
}.

Definition policies : list policy :=
  [ mkpolicy "Profiles are viewable by everyone" profiles_tbl SELECT
      (Some qual_true) None;
    mkpolicy "Users can update own profile" profiles_tbl UPDATE
      (Some qual_uid_is_owner) None;
    mkpolicy "Users can insert own profile" profiles_tbl INSERT
      None (Some qual_uid_is_owner);
    mkpolicy "Reviews are viewable by everyone" reviews_tbl SELECT
      (Some qual_true) None;
    mkpolicy "Users can create own reviews" reviews_tbl INSERT
      None (Some qual_uid_is_owner);
    mkpolicy "Users can update own reviews" reviews_tbl UPDATE
      (Some qual_uid_is_owner) None;
    mkpolicy "Users can delete own reviews" reviews_tbl DELETE
      (Some qual_uid_is_owner) None;
    mkpolicy "Users can view own lists" user_lists_tbl SELECT
      (Some qual_uid_is_owner) None;
    mkpolicy "Users can create own list items" user_lists_tbl INSERT
      None (Some qual_uid_is_owner);
    mkpolicy "Users can update own list items" user_lists_tbl UPDATE
      (Some qual_uid_is_owner) None;
    mkpolicy "Users can delete own list items" user_lists_tbl DELETE
      (Some qual_uid_is_owner) None ].

Definition eval_qual (c : caller) (owner : uuid) (q : qual) : bool :=
  match q with
  | qual_true => true
  | qual_uid_is_owner => is_true (sql_eq (auth_uid c) (Some owner))
  end.

Definition applies (t : table) (cmd : command) (p : policy) : bool :=
  table_eqb (polrel p) t && command_eqb (polcmd p) cmd.

(** The condition a new row must meet: the policy's WITH CHECK, and for a
    policy that has none, its USING. *)
Definition check_of (p : policy) : option qual :=
  match polwithcheck p with
  | Some q => Some q
  | None => polqual p
  end.

Definition passes (c : caller) (owner : uuid) (q : option qual) : bool :=
  match q with
  | Some q' => eval_qual c owner q'
  | None => false
  end.

(** Row-level security is enabled on the three tables, and the policies are
    permissive: an existing row can be reached by a command when some policy
    for that table and command has a USING that holds, and by none when the
    table has no policy for the command. *)
Definition rls_using (c : caller) (t : table) (cmd : command) (owner : uuid) : bool :=
  existsb (fun p => applies t cmd p && passes c owner (polqual p)) policies.

(** Likewise a new row is accepted when some policy's check holds of it. *)
Definition rls_with_check (c : caller) (t : table) (cmd : command) (owner : uuid) : bool :=
  existsb (fun p => applies t cmd p && passes c owner (check_of p)) policies.

(** ** Constraints *)

(** [CHECK (media_type IN ('movie', 'book', 'show'))]. *)
Definition media_type_check (s : string) : bool :=
  existsb (String.eqb s) ["movie"; "book"; "show"].

(** [CHECK (list_type IN ('watchlist', 'favorites', 'reading_list',
    'completed'))]. *)
Definition list_type_check (s : string) : bool :=
  existsb (String.eqb s) ["watchlist"; "favorites"; "reading_list"; "completed"].

(** [CHECK (rating >= 1 AND rating <= 10)]. *)
Definition rating_check (n : Z) : bool :=
  (1 <=? n)%Z && (n <=? 10)%Z.

Definition reviews_check (r : Reviews.row) : bool :=
  media_type_check (Reviews.media_type r) && rating_check (Reviews.rating r).

Definition user_lists_check (r : UserLists.row) : bool :=
  list_type_check (UserLists.list_type r) && media_type_check (UserLists.media_type r).

(** Two usernames collide when both are set and equal: a UNIQUE column
    allows any number of NULLs. *)
Definition same_username (a b : option string) : bool :=
  match a, b with
  | Some x, Some y => String.eqb x y
  | _, _ => false
  end.

(** [profiles]: PRIMARY KEY (id) and UNIQUE (username). *)
Definition profiles_conflict (r x : Profiles.row) : bool :=
  N.eqb (Profiles.id x) (Profiles.id r)
  || same_username (Profiles.username x) (Profiles.username r).

(** [reviews]: PRIMARY KEY (id) and UNIQUE (user_id, media_type, media_id). *)
Definition reviews_same_key (r x : Reviews.row) : bool :=
  N.eqb (Reviews.user_id x) (Reviews.user_id r)
  && String.eqb (Reviews.media_type x) (Reviews.media_type r)
  && String.eqb (Reviews.media_id x) (Reviews.media_id r).

Definition reviews_conflict (r x : Reviews.row) : bool :=
  N.eqb (Reviews.id x) (Reviews.id r) || reviews_same_key r x.

(** [user_lists]: PRIMARY KEY (id) and UNIQUE (user_id, list_type,
    media_type, media_id). *)
Definition user_lists_same_key (r x : UserLists.row) : bool :=
  N.eqb (UserLists.user_id x) (UserLists.user_id r)
  && String.eqb (UserLists.list_type x) (UserLists.list_type r)
  && String.eqb (UserLists.media_type x) (UserLists.media_type r)
  && String.eqb (UserLists.media_id x) (UserLists.media_id r).

Definition user_lists_conflict (r x : UserLists.row) : bool :=
  N.eqb (UserLists.id x) (UserLists.id r) || user_lists_same_key r x.

(** [REFERENCES auth.users(id)]: the identity exists. *)
Definition references_auth_users (u : uuid) (d : db) : bool :=
  existsb (fun a => N.eqb (AuthUsers.id a) u) (auth_users d).

(** ** Statements on [profiles] *)

Definition find_profile (pid : uuid) (d : db) : option Profiles.row :=
  find (fun x => N.eqb (Profiles.id x) pid) (profiles d).

(** The constraint part of an insert into [profiles], as run for a caller
    past row-level security and for the table's owner alike. *)
Definition store_profile (r : Profiles.row) (d : db) : result db :=
  guard (negb (existsb (profiles_conflict r) (profiles d))) UniqueViolation ;;;
  guard (references_auth_users (Profiles.id r) d) ForeignKeyViolation ;;;
  Ok (set_profiles d (profiles d ++ [r])).

Definition insert_profile (c : caller) (r : Profiles.row) (d : db) : result db :=
  guard (has_table_privilege (role_of c) profiles_tbl INSERT) AuthorizationDenied ;;;
  guard (rls_with_check c profiles_tbl INSERT (Profiles.id r)) AuthorizationDenied ;;;
  store_profile r d.

(** [UPDATE profiles SET ... WHERE id = pid], the row becoming [r]. *)
Definition update_profile (c : caller) (pid : uuid) (r : Profiles.row) (d : db) : result db :=
  guard (has_table_privilege (role_of c) profiles_tbl UPDATE) AuthorizationDenied ;;;
  match find_profile pid d with
  | None => Err NotFound
  | Some old =>
      guard (rls_using c profiles_tbl UPDATE (Profiles.id old)) NotFound ;;;
      guard (rls_with_check c profiles_tbl UPDATE (Profiles.id r)) AuthorizationDenied ;;;
      guard (negb (existsb (profiles_conflict r)
                     (filter (fun x => negb (N.eqb (Profiles.id x) pid)) (profiles d))))
            UniqueViolation ;;;
      guard (references_auth_users (Profiles.id r) d) ForeignKeyViolation ;;;
      Ok (set_profiles d
            (map (fun x => if N.eqb (Profiles.id x) pid then r else x) (profiles d)))
  end.

(** [DELETE FROM profiles WHERE id = pid]. *)
Definition delete_profile (c : caller) (pid : uuid) (d : db) : result db :=
  guard (has_table_privilege (role_of c) profiles_tbl DELETE) AuthorizationDenied ;;;
  match find_profile pid d with
  | None => Err NotFound
  | Some old =>
      guard (rls_using c profiles_tbl DELETE (Profiles.id old)) NotFound ;;;
      Ok (set_profiles d
            (filter (fun x => negb (N.eqb (Profiles.id x) pid)) (profiles d)))
  end.

(** [SELECT * FROM profiles WHERE id = pid]. *)
Definition read_profile (c : caller) (pid : uuid) (d : db) : result Profiles.row :=
  guard (has_table_privilege (role_of c) profiles_tbl SELECT) AuthorizationDenied ;;;
  match find_profile pid d with
  | None => Err NotFound
  | Some r =>
      guard (rls_using c profiles_tbl SELECT (Profiles.id r)) NotFound ;;;
      Ok r
  end.

(** ** Statements on [reviews] *)

Definition find_review (rid : uuid) (d : db) : option Reviews.row :=
  find (fun x => N.eqb (Reviews.id x) rid) (reviews d).

Definition insert_review (c : caller) (r : Reviews.row) (d : db) : result db :=
  guard (has_table_privilege (role_of c) reviews_tbl INSERT) AuthorizationDenied ;;;
  guard (rls_with_check c reviews_tbl INSERT (Reviews.user_id r)) AuthorizationDenied ;;;
  guard (reviews_check r) CheckViolation ;;;
  guard (negb (existsb (reviews_conflict r) (reviews d))) UniqueViolation ;;;
  guard (references_auth_users (Reviews.user_id r) d) ForeignKeyViolation ;;;
  Ok (set_reviews d (reviews d ++ [r])).

(** [UPDATE reviews SET ... WHERE id = rid], the row becoming [r]. *)
Definition update_review (c : caller) (rid : uuid) (r : Reviews.row) (d : db) : result db :=
  guard (has_table_privilege (role_of c) reviews_tbl UPDATE) AuthorizationDenied ;;;
  match find_review rid d with
  | None => Err NotFound
  | Some old =>
      guard (rls_using c reviews_tbl UPDATE (Reviews.user_id old)) NotFound ;;;
      guard (rls_with_check c reviews_tbl UPDATE (Reviews.user_id r)) AuthorizationDenied ;;;
      guard (reviews_check r) CheckViolation ;;;
      guard (negb (existsb (reviews_conflict r)
                     (filter (fun x => negb (N.eqb (Reviews.id x) rid)) (reviews d))))
            UniqueViolation ;;;
      guard (references_auth_users (Reviews.user_id r) d) ForeignKeyViolation ;;;
      Ok (set_reviews d
            (map (fun x => if N.eqb (Reviews.id x) rid then r else x) (reviews d)))
  end.

(** [DELETE FROM reviews WHERE id = rid]. *)
Definition delete_review (c : caller) (rid : uuid) (d : db) : result db :=
  guard (has_table_privilege (role_of c) reviews_tbl DELETE) AuthorizationDenied ;;;
  match find_review rid d with
  | None => Err NotFound
  | Some old =>
      guard (rls_using c reviews_tbl DELETE (Reviews.user_id old)) NotFound ;;;
      Ok (set_reviews d
            (filter (fun x => negb (N.eqb (Reviews.id x) rid)) (reviews d)))
  end.

(** [SELECT * FROM reviews WHERE id = rid]. *)
Definition read_review (c : caller) (rid : uuid) (d : db) : result Reviews.row :=
  guard (has_table_privilege (role_of c) reviews_tbl SELECT) AuthorizationDenied ;;;
  match find_review rid d with
  | None => Err NotFound
  | Some r =>
      guard (rls_using c reviews_tbl SELECT (Reviews.user_id r)) NotFound ;;;
      Ok r
  end.

(** [SELECT * FROM reviews]: the rows the SELECT policy lets through. *)
Definition select_reviews (c : caller) (d : db) : result (list Reviews.row) :=
  guard (has_table_privilege (role_of c) reviews_tbl SELECT) AuthorizationDenied ;;;
  Ok (filter (fun r => rls_using c reviews_tbl SELECT (Reviews.user_id r)) (reviews d)).

(** ** Statements on [user_lists] *)

Definition find_list_item (lid : uuid) (d : db) : option UserLists.row :=
  find (fun x => N.eqb (UserLists.id x) lid) (user_lists d).

Definition insert_list_item (c : caller) (r : UserLists.row) (d : db) : result db :=
  guard (has_table_privilege (role_of c) user_lists_tbl INSERT) AuthorizationDenied ;;;
  guard (rls_with_check c user_lists_tbl INSERT (UserLists.user_id r)) AuthorizationDenied ;;;
  guard (user_lists_check r) CheckViolation ;;;
  guard (negb (existsb (user_lists_conflict r) (user_lists d))) UniqueViolation ;;;
  guard (references_auth_users (UserLists.user_id r) d) ForeignKeyViolation ;;;
  Ok (set_user_lists d (user_lists d ++ [r])).

(** [UPDATE user_lists SET ... WHERE id = lid], the row becoming [r]. *)
Definition update_list_item (c : caller) (lid : uuid) (r : UserLists.row) (d : db) : result db :=
  guard (has_table_privilege (role_of c) user_lists_tbl UPDATE) AuthorizationDenied ;;;
  match find_list_item lid d with
  | None => Err NotFound
  | Some old =>
      guard (rls_using c user_lists_tbl UPDATE (UserLists.user_id old)) NotFound ;;;
      guard (rls_with_check c user_lists_tbl UPDATE (UserLists.user_id r)) AuthorizationDenied ;;;
      guard (user_lists_check r) CheckViolation ;;;
      guard (negb (existsb (user_lists_conflict r)
                     (filter (fun x => negb (N.eqb (UserLists.id x) lid)) (user_lists d))))
            UniqueViolation ;;;
      guard (references_auth_users (UserLists.user_id r) d) ForeignKeyViolation ;;;
      Ok (set_user_lists d
            (map (fun x => if N.eqb (UserLists.id x) lid then r else x) (user_lists d)))
  end.

(** [DELETE FROM user_lists WHERE id = lid]. *)
Definition delete_list_item (c : caller) (lid : uuid) (d : db) : result db :=
  guard (has_table_privilege (role_of c) user_lists_tbl DELETE) AuthorizationDenied ;;;
  match find_list_item lid d with
  | None => Err NotFound
  | Some old =>
      guard (rls_using c user_lists_tbl DELETE (UserLists.user_id old)) NotFound ;;;
      Ok (set_user_lists d
            (filter (fun x => negb (N.eqb (UserLists.id x) lid)) (user_lists d)))
  end.

(** [SELECT * FROM user_lists WHERE id = lid]. *)
Definition read_list_item (c : caller) (lid : uuid) (d : db) : result UserLists.row :=
  guard (has_table_privilege (role_of c) user_lists_tbl SELECT) AuthorizationDenied ;;;
  match find_list_item lid d with
  | None => Err NotFound
  | Some r =>
      guard (rls_using c user_lists_tbl SELECT (UserLists.user_id r)) NotFound ;;;
      Ok r
  end.

(** [SELECT * FROM user_lists]: the rows the SELECT policy lets through. *)
Definition select_user_lists (c : caller) (d : db) : result (list UserLists.row) :=
  guard (has_table_privilege (role_of c) user_lists_tbl SELECT) AuthorizationDenied ;;;
  Ok (filter (fun r => rls_using c user_lists_tbl SELECT (UserLists.user_id r))
        (user_lists d)).

(** ** Identities: signup and deletion *)

(** The identity provider's [INSERT INTO auth.users]; [id] is that table's
    primary key. *)
Definition insert_auth_user (NEW : AuthUsers.row) (d : db) : result db :=
  guard (negb (references_auth_users (AuthUsers.id NEW) d)) UniqueViolation ;;;
  Ok (set_auth_users d (auth_users d ++ [NEW])).

(** The username the trigger gives the profile:
    [COALESCE(NEW.raw_user_meta_data->>'username',
              split_part(NEW.email, '@', 1))]. *)
Definition derived_username (NEW : AuthUsers.row) : option string :=
  COALESCE (json_get_text (AuthUsers.raw_user_meta_data NEW) "username")
           (split_part (AuthUsers.email NEW) "@"%char 1).

(** [handle_new_user()].  It is SECURITY DEFINER: the insert runs as the
    function's owner, past table privileges and row-level security, and is
    held only by the table's constraints.  [avatar_url] is left NULL and
    [updated_at] takes its default, [NOW()]. *)
Definition handle_new_user (NEW : AuthUsers.row) (now : timestamptz) (d : db) : result db :=
  store_profile
    (Profiles.mk (AuthUsers.id NEW) (derived_username NEW) None (Some now) (Some now))
    d.

(** Signup: the insert into [auth.users] and the AFTER INSERT trigger
    [on_auth_user_created] are one statement; when the trigger raises, the
    inserted identity goes with it. *)
Definition create_identity (NEW : AuthUsers.row) (now : timestamptz) (d : db) : result db :=
  d1 <- insert_auth_user NEW d ;;
  handle_new_user NEW now d1.

(** [DELETE FROM auth.users WHERE id = u], with the three
    [ON DELETE CASCADE] references: one statement removes the identity, its
    profile, its reviews and its list items. *)
Definition delete_identity (u : uuid) (d : db) : db :=
  mkdb (filter (fun a => negb (N.eqb (AuthUsers.id a) u)) (auth_users d))
       (filter (fun p => negb (N.eqb (Profiles.id p) u)) (profiles d))
       (filter (fun r => negb (N.eqb (Reviews.user_id r) u)) (reviews d))
       (filter (fun l => negb (N.eqb (UserLists.user_id l) u)) (user_lists d)).

(** ** Histories *)

Inductive stmt : Type :=
| CreateIdentity (NEW : AuthUsers.row) (now : timestamptz)
| DeleteIdentity (u : uuid)
| InsertProfile (c : caller) (r : Profiles.row)
| UpdateProfile (c : caller) (pid : uuid) (r : Profiles.row)
| DeleteProfile (c : caller) (pid : uuid)
| InsertReview (c : caller) (r : Reviews.row)
| UpdateReview (c : caller) (rid : uuid) (r : Reviews.row)
| DeleteReview (c : caller) (rid : uuid)
| InsertListItem (c : caller) (r : UserLists.row)
| UpdateListItem (c : caller) (lid : uuid) (r : UserLists.row)
| DeleteListItem (c : caller) (lid : uuid).

Definition exec (s : stmt) (d : db) : result db :=
  match s with
  | CreateIdentity NEW now => create_identity NEW now d
  | DeleteIdentity u => Ok (delete_identity u d)
  | InsertProfile c r => insert_profile c r d
  | UpdateProfile c pid r => update_profile c pid r d
  | DeleteProfile c pid => delete_profile c pid d
  | InsertReview c r => insert_review c r d
  | UpdateReview c rid r => update_review c rid r d
  | DeleteReview c rid => delete_review c rid d
  | InsertListItem c r => insert_list_item c r d
  | UpdateListItem c lid r => update_list_item c lid r d
  | DeleteListItem c lid => delete_list_item c lid d
  end.

(** The database after a statement: what it committed, or the database as
    it was when the statement raised. *)
Definition after (r : result db) (d : db) : db :=
  match r with
  | Ok d' => d'
  | Err _ => d
  end.

Definition run (s : stmt) (d : db) : db := after (exec s d) d.

Definition run_all (l : list stmt) (d : db) : db := fold_left (fun acc s => run s acc) l d.

(** The states the system can be in: those some history of statements
    leads to from the empty database. *)
Inductive reachable : db -> Prop :=
| reachable_empty : reachable empty_db
| reachable_run (s : stmt) (d : db) : reachable d -> reachable (run s d).

(** ** Notions used to state the properties *)

(** The caller is the identity [owner]. *)
Definition is_owner (c : caller) (owner : uuid) : bool :=
  is_true (sql_eq (auth_uid c) (Some owner)).

(** How many profile rows carry the id [u]. *)
Definition profile_count (u : uuid) (d : db) : nat :=
  List.length (filter (fun p => N.eqb (Profiles.id p) u) (profiles d)).

(** Each identity has exactly one profile row under its id. *)
Definition every_identity_has_one_profile (d : db) : Prop :=
  forall a, In a (auth_users d) -> profile_count (AuthUsers.id a) d = 1.

(** The same, together with its converse: an id carries one profile when it
    is an identity's and none otherwise. *)
Definition profiles_match_identities (d : db) : Prop :=
  forall u, profile_count u d = if references_auth_users u d then 1 else 0.

(** Every stored review meets the table's CHECK constraints. *)
Definition reviews_checked (d : db) : Prop :=
  forall r, In r (reviews d) -> reviews_check r = true.

(** No two reviews and no two list items share a primary key. *)
Definition primary_keys_unique (d : db) : Prop :=
  NoDup (map Reviews.id (reviews d)) /\ NoDup (map UserLists.id (user_lists d)).

(** No orphans: the owner of every review and of every list item is an
    existing identity. *)
Definition owners_exist (d : db) : Prop :=
  (forall r, In r (reviews d) -> references_auth_users (Reviews.user_id r) d = true) /\
  (forall l, In l (user_lists d) ->
     references_auth_users (UserLists.user_id l) d = true).

(** [s] has no occurrence of [ch]. *)
Fixpoint free_of (ch : ascii) (s : string) : bool :=
  match s with
  | EmptyString => true
  | String x rest => negb (Ascii.eqb x ch) && free_of ch rest
  end.

(** The scenario of the specification: identities A (alice, no metadata)
    and B, A's review of movie 27205 and A's two list entries for it. *)
Module Scenario.
Definition A : uuid := 1%N.
Definition B : uuid := 2%N.
Definition alice : AuthUsers.row :=
  AuthUsers.mk A (Some "alice@example.com") None.
Definition bob : AuthUsers.row :=
  AuthUsers.mk B (Some "bob@example.com") (Some [("username", Some "bobby")]).
Definition review8 : Reviews.row :=
  Reviews.mk 10%N A "movie" "27205" 8%Z None (Some 3%Z) (Some 3%Z).
Definition review5 : Reviews.row :=
  Reviews.mk 11%N A "movie" "27205" 5%Z None (Some 4%Z) (Some 4%Z).
Definition watch : UserLists.row :=
  UserLists.mk 20%N A "watchlist" "movie" "27205" "Inception" None (Some 5%Z).
Definition fav : UserLists.row :=
  UserLists.mk 21%N A "favorites" "movie" "27205" "Inception" None (Some 6%Z).
Definition signups : list stmt :=
  [ CreateIdentity alice 1%Z; CreateIdentity bob 2%Z ].
Definition history : list stmt :=
  signups ++
  [ InsertReview (Authenticated A) review8;
    InsertListItem (Authenticated A) watch;
    InsertListItem (Authenticated A) fav ].
Definition state : db := run_all history empty_db.
End Scenario.

(** Identities that sign up with neither a metadata username nor an email,
    numbered from 0. *)
Definition bare_identity (i : nat) : AuthUsers.row :=
  AuthUsers.mk (N.of_nat i) None None.

Definition bare_signups (n : nat) : list stmt :=
  map (fun i => CreateIdentity (bare_identity i) 0%Z) (seq 0 n).

(** ** Notions for the rest of the script *)

(** No row of [l] conflicts with a later one. *)
Fixpoint conflict_free {A : Type} (conflict : A -> A -> bool) (l : list A) : bool :=
  match l with
  | [] => true
  | x :: rest => negb (existsb (conflict x) rest) && conflict_free conflict rest
  end.

(** The PRIMARY KEY and UNIQUE constraints of the three tables hold. *)
Definition unique_keys (d : db) : Prop :=
  conflict_free profiles_conflict (profiles d) = true /\
  conflict_free reviews_conflict (reviews d) = true /\
  conflict_free user_lists_conflict (user_lists d) = true.

(** Every stored list item meets the table's CHECK constraints. *)
Definition user_lists_checked (d : db) : Prop :=
  forall l, In l (user_lists d) -> user_lists_check l = true.

(** The API caller of a statement; signup and identity deletion come from
    the identity provider and have none. *)
Definition stmt_caller (s : stmt) : option caller :=
  match s with
  | CreateIdentity _ _ | DeleteIdentity _ => None
  | InsertProfile c _ | UpdateProfile c _ _ | DeleteProfile c _
  | InsertReview c _ | UpdateReview c _ _ | DeleteReview c _
  | InsertListItem c _ | UpdateListItem c _ _ | DeleteListItem c _ => Some c
  end.

(** The rows an identity owns. *)
Definition profiles_of (u : uuid) (d : db) : list Profiles.row :=
  filter (fun p => N.eqb (Profiles.id p) u) (profiles d).
Definition reviews_of (u : uuid) (d : db) : list Reviews.row :=
  filter (fun r => N.eqb (Reviews.user_id r) u) (reviews d).
Definition list_items_of (u : uuid) (d : db) : list UserLists.row :=
  filter (fun l => N.eqb (UserLists.user_id l) u) (user_lists d).

(** ** The web pages that write to the tables *)

(** What a signed-in page knows about the session: [session?.access_token]. *)
Record Session : Type := mkSession { access_token : string }.

(** [!user || !session?.access_token]: there is no user, no session, or an
    empty token. *)
Definition not_signed_in (user : bool) (session : option Session) : bool :=
  negb user ||
  match session with
  | None => true
  | Some s => String.eqb (access_token s) ""
  end.

(** [text || null] and [text || undefined]: an empty text is dropped. *)
Definition text_or_null (s : string) : option string :=
  if String.eqb s "" then None else Some s.

(** The review form of the reviews page. *)
Module ReviewsPage.
(** [MediaItem.media_type]: ['movie' | 'tv' | 'book']. *)
Inductive media_type : Type := movie | tv | book.

Definition media_type_text (m : media_type) : string :=
  match m with
  | movie => "movie"
  | tv => "tv"
  | book => "book"
  end.

(** The fields of [MediaItem] that the submit handler reads; [id] is the
    text [String(media.id)]. *)
Record MediaItem : Type := mkMedia {
  id : string;
  item_type : media_type
}.

(** The JSON body posted to [/api/user/reviews]. *)
Record body : Type := mkBody {
  body_media_type : string;
  body_media_id : string;
  body_rating : Z;
  body_review_text : option string
}.

Inductive action : Type :=
| ShowError (msg : string)
| PostReview (token : string) (b : body).

(** [handleSubmit], up to the request it sends; [rating] is the number of
    stars picked, 0 while none is. *)
Definition handleSubmit (media : option MediaItem) (rating : Z)
    (user : bool) (session : option Session) (reviewText : string) : action :=
  match media with
  | None => ShowError "Please select a rating"
  | Some m =>
      if (rating =? 0)%Z then ShowError "Please select a rating"
      else if not_signed_in user session
      then ShowError "Please sign in to submit a review"
      else
        match session with
        | None => ShowError "Please sign in to submit a review"
        | Some s =>
            PostReview (access_token s)
              (mkBody (media_type_text (item_type m)) (id m) (rating * 2)%Z
                 (text_or_null reviewText))
        end
  end.

(** The stars the form offers: [[1, 2, 3, 4, 5].map(...)] with
    [onClick={() => setRating(star)}]. *)
Definition stars : list Z := [1; 2; 3; 4; 5]%Z.
End ReviewsPage.

(** The two list buttons of the book page. *)
Module BookPage.
(** [listType: 'favorites' | 'reading_list']. *)
Inductive listType : Type := favorites | reading_list.

Definition listType_text (t : listType) : string :=
  match t with
  | favorites => "favorites"
  | reading_list => "reading_list"
  end.

(** The fields of [BookDetails] that the handler reads. *)
Record BookDetails : Type := mkBook {
  id : string;
  title : string;
  cover_url : option string
}.

(** The JSON body [addToList] posts to [/api/user/lists]. *)
Record body : Type := mkBody {
  body_list_type : string;
  body_media_type : string;
  body_media_id : string;
  body_title : string;
  body_image_url : option string
}.

Inductive action : Type :=
| ShowError (msg : string)
| Nothing
| AddToList (token : string) (b : body).

(** [handleAddToList], up to the request it sends. *)
Definition handleAddToList (t : listType) (user : bool) (session : option Session)
    (details : option BookDetails) : action :=
  if not_signed_in user session then ShowError "Please sign in to add to your list"
  else
    match session, details with
    | None, _ => ShowError "Please sign in to add to your list"
    | Some _, None => Nothing
    | Some s, Some b =>
        AddToList (access_token s)
          (mkBody (listType_text t) "book" (id b) (title b)
             (match cover_url b with
              | Some url => text_or_null url
              | None => None
              end))
    end.
End BookPage.

(** The sign-in and sign-up form. *)
Module AuthPage.
(** A JavaScript string as its UTF-16 code units, which is what [length]
    counts and [!==] compares. *)
Definition js_string := list N.

Inductive action : Type :=
| ShowError (msg : string)
| SignIn (email password : js_string)
| SignUp (email password : js_string).

(** [handleSubmit], up to the call it makes. *)
Definition handleSubmit (isLogin : bool) (email password confirmPassword : js_string)
    : action :=
  if isLogin then SignIn email password
  else if negb (if list_eq_dec N.eq_dec password confirmPassword then true else false)
  then ShowError "Passwords do not match"
  else if (List.length password <? 6)%nat
  then ShowError "Password must be at least 6 characters"
  else SignUp email password.
End AuthPage.

(** The API base address of the fetch helpers. *)
Module Fetcher.
(** [s.endsWith('/')]. *)
Fixpoint endsWith_slash (s : string) : bool :=
  match s with
  | EmptyString => false
  | String ch EmptyString => Ascii.eqb ch "/"%char
  | String _ rest => endsWith_slash rest
  end.

(** [s.slice(0, -1)]. *)
Fixpoint slice_0_minus_1 (s : string) : string :=
  match s with
  | EmptyString => EmptyString
  | String _ EmptyString => EmptyString
  | String ch rest => String ch (slice_0_minus_1 rest)
  end.

(** [process.env.NEXT_PUBLIC_API_URL || "http://127.0.0.1:8000"]: an unset
    or empty variable gives the default. *)
Definition rawApiUrl (env : option string) : string :=
  match env with
  | None => "http://127.0.0.1:8000"
  | Some s => if String.eqb s "" then "http://127.0.0.1:8000" else s
  end.

Definition API_URL (env : option string) : string :=
  if endsWith_slash (rawApiUrl env) then slice_0_minus_1 (rawApiUrl env)
  else rawApiUrl env.
End Fetcher.

(** The movie fields of the recommendation form. *)
Module RecommendPage.
Record Movie : Type := mkMovie {
  id : nat;
  title : string;
  rating : Z
}.

(** The initial state of [movies]. *)
Definition initial : list Movie :=
  [ mkMovie 1 "" 5%Z; mkMovie 2 "" 5%Z; mkMovie 3 "" 5%Z ].

(** [setMovies([...movies, { id: movies.length + 1, title: "", rating: 5 }])]. *)
Definition addMovieField (movies : list Movie) : list Movie :=
  movies ++ [mkMovie (List.length movies + 1) "" 5%Z].

(** [if (movies.length > 1) setMovies(movies.filter((movie) => movie.id !== id))]. *)
Definition removeMovieField (k : nat) (movies : list Movie) : list Movie :=
  if (1 <? List.length movies)%nat
  then filter (fun m => negb (Nat.eqb (id m) k)) movies
  else movies.

(** The two fields the form updates through [updateMovie]. *)
Inductive update : Type :=
| Title (value : string)
| Rating (value : Z).

(** [movies.map((movie) => movie.id === id ? { ...movie, [field]: value } : movie)]. *)
Definition updateMovie (k : nat) (u : update) (movies : list Movie) : list Movie :=
  map (fun m =>
         if Nat.eqb (id m) k
         then match u with
              | Title v => mkMovie (id m) v (rating m)
              | Rating v => mkMovie (id m) (title m) v
              end
         else m)
      movies.
End RecommendPage.

(** * Properties *)

(** ** Guards and the catalog *)

Lemma bind_guard_true {B : Type} (b : bool) (e : error) (k : result B) :
  b = true -> (guard b e ;;; k) = k.
Proof. intros ->. reflexivity. Qed.

(** A statement guarded by [b] that committed had [b] true. *)
Lemma bind_guard_inv {B : Type} (b : bool) (e : error) (k : result B) (x : B) :
  (guard b e ;;; k) = Ok x -> b = true /\ k = Ok x.
Proof. destruct b; simpl; intros H; [auto | discriminate]. Qed.

Ltac guards :=
  repeat match goal with
         | H : (guard _ _ ;;; _) = Ok _ |- _ =>
             apply bind_guard_inv in H; destruct H as [? H]
         end.

Lemma callers_have_privilege (c : caller) (t : table) (cmd : command) :
  has_table_privilege (role_of c) t cmd = true.
Proof. destruct c, t; reflexivity. Qed.

Lemma is_owner_authenticated (v o : uuid) : is_owner (Authenticated v) o = N.eqb v o.
Proof. unfold is_owner; simpl. destruct (N.eqb v o); reflexivity. Qed.

(** What the eleven policies add up to for existing rows. *)
Lemma rls_using_spec (c : caller) (t : table) (cmd : command) (o : uuid) :
  rls_using c t cmd o =
  match t, cmd with
  | profiles_tbl, SELECT | reviews_tbl, SELECT => true
  | profiles_tbl, DELETE => false
  | _, INSERT => false
  | _, _ => is_owner c o
  end.
Proof.
  unfold rls_using, is_owner.
  destruct t, cmd; simpl;
    destruct (is_true (sql_eq (auth_uid c) (Some o))); reflexivity.
Qed.

(** And for the new rows of INSERT and UPDATE. *)
Lemma rls_with_check_spec (c : caller) (t : table) (cmd : command) (o : uuid) :
  cmd = INSERT \/ cmd = UPDATE ->
  rls_with_check c t cmd o = is_owner c o.
Proof.
  unfold rls_with_check, is_owner.
  intros [-> | ->]; destruct t; simpl;
    destruct (is_true (sql_eq (auth_uid c) (Some o))); reflexivity.
Qed.

Lemma find_id_eq {A : Type} (key : A -> uuid) (k : uuid) (l : list A) (x : A) :
  find (fun y => N.eqb (key y) k) l = Some x -> In x l /\ key x = k.
Proof.
  intros H. apply find_some in H. destruct H as [Hin Heq].
  apply N.eqb_eq in Heq. auto.
Qed.

Lemma find_filtered_out {A : Type} (key : A -> uuid) (k : uuid) (l : list A) :
  find (fun y => N.eqb (key y) k) (filter (fun y => negb (N.eqb (key y) k)) l) = None.
Proof.
  induction l as [|a l IH]; simpl; [reflexivity|].
  destruct (N.eqb (key a) k) eqn:E; simpl; [exact IH|].
  rewrite E. exact IH.
Qed.

Lemma existsb_false_forall {A : Type} (f : A -> bool) (l : list A) :
  existsb f l = false <-> forall x, In x l -> f x = false.
Proof.
  split.
  - intros H x Hin. destruct (f x) eqn:E; [|reflexivity].
    assert (existsb f l = true) by (apply existsb_exists; eauto). congruence.
  - intros H. destruct (existsb f l) eqn:E; [|reflexivity].
    apply existsb_exists in E. destruct E as [x [Hin Hx]].
    rewrite (H x Hin) in Hx. discriminate.
Qed.

Lemma all_rows_pass {A : Type} (f : A -> bool) (l : list A) :
  (forall x, In x l -> f x = true) -> filter f l = l.
Proof.
  induction l as [|a l IH]; simpl; intros H; [reflexivity|].
  rewrite (H a (or_introl eq_refl)), IH; [reflexivity|].
  intros x Hx. apply H. right. exact Hx.
Qed.

(** ** Who may read and write which row *)

(** C1, where the claim fails: identity B's read of A's stored list item
    raises no authorization error.  The SELECT policy hides the row, and the
    read ends as the read of an id that no row has: without a row. *)
Lemma hidden_list_item_read_raises_nothing :
  find_list_item 20%N Scenario.state = Some Scenario.watch /\
  read_list_item (Authenticated Scenario.B) 20%N Scenario.state = Err NotFound /\
  read_list_item (Authenticated Scenario.B) 20%N Scenario.state
    <> Err AuthorizationDenied /\
  read_list_item (Authenticated Scenario.B) 99%N Scenario.state = Err NotFound.
Proof. repeat split; try reflexivity. discriminate. Qed.

(** C1, as the script has it: every caller, signed in or with no identity,
    can read every review.  A list item is read by its signed-in owner;
    for any other identity, and for a caller with no identity, the row is
    hidden: the read of its id ends without a row, as for an id that does
    not exist, and the row is absent from what the caller's SELECT
    returns. *)
Theorem reviews_public_lists_hidden (d : db) (v : uuid) :
  (forall c rid r, find_review rid d = Some r -> read_review c rid d = Ok r) /\
  (forall c, select_reviews c d = Ok (reviews d)) /\
  (forall lid l, find_list_item lid d = Some l -> UserLists.user_id l <> v ->
     read_list_item (Authenticated v) lid d = Err NotFound /\
     forall rows, select_user_lists (Authenticated v) d = Ok rows -> ~ In l rows) /\
  (forall lid, read_list_item Anon lid d = Err NotFound) /\
  select_user_lists Anon d = Ok [] /\
  (forall lid l, find_list_item lid d = Some l -> UserLists.user_id l = v ->
     read_list_item (Authenticated v) lid d = Ok l).
Proof.
  split; [|split; [|split; [|split; [|split]]]].
  - intros c rid r Hf. unfold read_review.
    rewrite callers_have_privilege, Hf. reflexivity.
  - intros c. unfold select_reviews. rewrite callers_have_privilege. simpl.
    f_equal. apply all_rows_pass. intros r _. apply rls_using_spec.
  - intros lid l Hf Hne. split.
    + unfold read_list_item. rewrite Hf.
      rewrite rls_using_spec, is_owner_authenticated. simpl.
      apply N.eqb_neq in Hne. rewrite N.eqb_sym in Hne. rewrite Hne. reflexivity.
    + intros rows Hsel Hin. unfold select_user_lists in Hsel. simpl in Hsel.
      injection Hsel as <-. apply filter_In in Hin. destruct Hin as [_ Hp].
      rewrite rls_using_spec, is_owner_authenticated in Hp.
      apply N.eqb_eq in Hp. congruence.
  - intros lid. unfold read_list_item. simpl.
    destruct (find_list_item lid d); reflexivity.
  - unfold select_user_lists. simpl. f_equal.
    induction (user_lists d) as [|a l IH]; simpl; [reflexivity | exact IH].
  - intros lid l Hf <-. unfold read_list_item. rewrite Hf.
    rewrite rls_using_spec, is_owner_authenticated. simpl.
    rewrite N.eqb_refl. reflexivity.
Qed.

Lemma reviews_public_lists_hidden_witness :
  read_review Anon 10%N Scenario.state = Ok Scenario.review8 /\
  read_review (Authenticated Scenario.B) 10%N Scenario.state = Ok Scenario.review8 /\
  read_list_item (Authenticated Scenario.B) 20%N Scenario.state = Err NotFound /\
  read_list_item (Authenticated Scenario.A) 20%N Scenario.state = Ok Scenario.watch.
Proof.
  destruct (reviews_public_lists_hidden Scenario.state Scenario.B)
    as [Hr [_ [Hl _]]].
  destruct (reviews_public_lists_hidden Scenario.state Scenario.A)
    as [_ [_ [_ [_ [_ Ho]]]]].
  split; [|split; [|split]].
  - apply Hr. reflexivity.
  - apply Hr. reflexivity.
  - apply (Hl 20%N Scenario.watch); [reflexivity | discriminate].
  - apply Ho; reflexivity.
Defined.

(** C2, where the claim fails: identity B's update and delete of A's stored
    review raise no authorization error.  The policy hides the row from
    them and they end as on an id that no row has: with no row touched. *)
Lemma foreign_review_write_raises_nothing :
  find_review 10%N Scenario.state = Some Scenario.review8 /\
  update_review (Authenticated Scenario.B) 10%N Scenario.review5 Scenario.state
    = Err NotFound /\
  delete_review (Authenticated Scenario.B) 10%N Scenario.state = Err NotFound /\
  update_review (Authenticated Scenario.B) 10%N Scenario.review5 Scenario.state
    <> Err AuthorizationDenied /\
  delete_review (Authenticated Scenario.B) 10%N Scenario.state
    <> Err AuthorizationDenied.
Proof. repeat split; try reflexivity; discriminate. Qed.

(** C2, as the script has it: an update or a delete that identity [u2] aims
    at a review owned by another identity [u1] touches no row, with the
    outcome of a statement on a missing id and no authorization error, and
    the database, so that review too, is as it was. *)
Theorem foreign_review_write_has_no_effect
    (d : db) (u1 u2 rid : uuid) (r new : Reviews.row) :
  u1 <> u2 ->
  find_review rid d = Some r ->
  Reviews.user_id r = u1 ->
  update_review (Authenticated u2) rid new d = Err NotFound /\
  delete_review (Authenticated u2) rid d = Err NotFound /\
  run (UpdateReview (Authenticated u2) rid new) d = d /\
  run (DeleteReview (Authenticated u2) rid) d = d /\
  find_review rid (run (UpdateReview (Authenticated u2) rid new) d) = Some r /\
  find_review rid (run (DeleteReview (Authenticated u2) rid) d) = Some r.
Proof.
  intros Hne Hf Ho.
  assert (Hden : N.eqb u2 (Reviews.user_id r) = false)
    by (apply N.eqb_neq; congruence).
  assert (Hu : update_review (Authenticated u2) rid new d = Err NotFound).
  { unfold update_review. rewrite Hf, rls_using_spec, is_owner_authenticated.
    simpl. rewrite Hden. reflexivity. }
  assert (Hd : delete_review (Authenticated u2) rid d = Err NotFound).
  { unfold delete_review. rewrite Hf, rls_using_spec, is_owner_authenticated.
    simpl. rewrite Hden. reflexivity. }
  unfold run; simpl. rewrite Hu, Hd. simpl. repeat split; auto.
Qed.

Lemma foreign_review_write_has_no_effect_witness :
  update_review (Authenticated Scenario.B) 10%N Scenario.review5 Scenario.state
    = Err NotFound /\
  delete_review (Authenticated Scenario.B) 10%N Scenario.state = Err NotFound /\
  find_review 10%N
    (run (UpdateReview (Authenticated Scenario.B) 10%N Scenario.review5) Scenario.state)
    = Some Scenario.review8.
Proof.
  destruct (foreign_review_write_has_no_effect Scenario.state Scenario.A Scenario.B
              10%N Scenario.review8 Scenario.review5) as [Hu [Hd [_ [_ [Hf _]]]]].
  - discriminate.
  - reflexivity.
  - reflexivity.
  - auto.
Defined.

(** ** What a committed statement did *)

Lemma is_owner_true (c : caller) (o : uuid) :
  is_owner c o = true -> c = Authenticated o.
Proof.
  destruct c as [|v]; simpl; [discriminate|].
  rewrite is_owner_authenticated. intros H. apply N.eqb_eq in H. congruence.
Qed.

Lemma store_profile_ok (r : Profiles.row) (d d' : db) :
  store_profile r d = Ok d' ->
  existsb (profiles_conflict r) (profiles d) = false /\
  references_auth_users (Profiles.id r) d = true /\
  d' = set_profiles d (profiles d ++ [r]).
Proof.
  unfold store_profile. intros H. guards.
  apply negb_true_iff in H0. injection H as <-. auto.
Qed.

Lemma insert_profile_ok (c : caller) (r : Profiles.row) (d d' : db) :
  insert_profile c r d = Ok d' ->
  c = Authenticated (Profiles.id r) /\ store_profile r d = Ok d'.
Proof.
  unfold insert_profile. intros H. guards.
  rewrite rls_with_check_spec in H1 by auto.
  split; [apply is_owner_true; assumption | assumption].
Qed.

Lemma update_profile_ok (c : caller) (pid : uuid) (r : Profiles.row) (d d' : db) :
  update_profile c pid r d = Ok d' ->
  c = Authenticated pid /\ Profiles.id r = pid /\
  (exists old, find_profile pid d = Some old) /\
  existsb (profiles_conflict r)
    (filter (fun x => negb (N.eqb (Profiles.id x) pid)) (profiles d)) = false /\
  d' = set_profiles d
         (map (fun x => if N.eqb (Profiles.id x) pid then r else x) (profiles d)).
Proof.
  unfold update_profile. intros H. guards.
  destruct (find_profile pid d) as [old|] eqn:Hf; [|discriminate].
  guards. injection H as <-.
  rewrite rls_using_spec in H1. rewrite rls_with_check_spec in H2 by auto.
  apply find_id_eq in Hf. destruct Hf as [_ Hid]. rewrite Hid in H1.
  apply is_owner_true in H1. apply is_owner_true in H2.
  apply negb_true_iff in H3.
  repeat split; eauto. congruence.
Qed.

Lemma delete_profile_fails (c : caller) (pid : uuid) (d : db) :
  exists e, delete_profile c pid d = Err e.
Proof.
  unfold delete_profile.
  destruct (has_table_privilege (role_of c) profiles_tbl DELETE);
    [|eexists; reflexivity].
  rewrite bind_guard_true by reflexivity.
  destruct (find_profile pid d); [|eauto].
  rewrite rls_using_spec. eexists; reflexivity.
Qed.

Lemma insert_review_ok (c : caller) (r : Reviews.row) (d d' : db) :
  insert_review c r d = Ok d' ->
  c = Authenticated (Reviews.user_id r) /\ reviews_check r = true /\
  existsb (reviews_conflict r) (reviews d) = false /\
  references_auth_users (Reviews.user_id r) d = true /\
  d' = set_reviews d (reviews d ++ [r]).
Proof.
  unfold insert_review. intros H. guards.
  rewrite rls_with_check_spec in H1 by auto. apply is_owner_true in H1.
  apply negb_true_iff in H3. injection H as <-. auto.
Qed.

Lemma update_review_ok (c : caller) (rid : uuid) (r : Reviews.row) (d d' : db) :
  update_review c rid r d = Ok d' ->
  c = Authenticated (Reviews.user_id r) /\ reviews_check r = true /\
  (exists old, find_review rid d = Some old /\ Reviews.user_id old = Reviews.user_id r) /\
  existsb (reviews_conflict r)
    (filter (fun x => negb (N.eqb (Reviews.id x) rid)) (reviews d)) = false /\
  references_auth_users (Reviews.user_id r) d = true /\
  d' = set_reviews d
         (map (fun x => if N.eqb (Reviews.id x) rid then r else x) (reviews d)).
Proof.
  unfold update_review. intros H. guards.
  destruct (find_review rid d) as [old|] eqn:Hf; [|discriminate].
  guards. injection H as <-.
  rewrite rls_using_spec in H1. rewrite rls_with_check_spec in H2 by auto.
  apply is_owner_true in H1. apply is_owner_true in H2.
  apply negb_true_iff in H4.
  repeat split; eauto. exists old. split; congruence.
Qed.

Lemma delete_review_ok (c : caller) (rid : uuid) (d d' : db) :
  delete_review c rid d = Ok d' ->
  (exists old, find_review rid d = Some old /\ c = Authenticated (Reviews.user_id old)) /\
  d' = set_reviews d (filter (fun x => negb (N.eqb (Reviews.id x) rid)) (reviews d)).
Proof.
  unfold delete_review. intros H. guards.
  destruct (find_review rid d) as [old|] eqn:Hf; [|discriminate].
  guards. injection H as <-.
  rewrite rls_using_spec in H1. apply is_owner_true in H1.
  split; eauto.
Qed.

Lemma insert_list_item_ok (c : caller) (r : UserLists.row) (d d' : db) :
  insert_list_item c r d = Ok d' ->
  c = Authenticated (UserLists.user_id r) /\ user_lists_check r = true /\
  existsb (user_lists_conflict r) (user_lists d) = false /\
  references_auth_users (UserLists.user_id r) d = true /\
  d' = set_user_lists d (user_lists d ++ [r]).
Proof.
  unfold insert_list_item. intros H. guards.
  rewrite rls_with_check_spec in H1 by auto. apply is_owner_true in H1.
  apply negb_true_iff in H3. injection H as <-. auto.
Qed.

Lemma update_list_item_ok (c : caller) (lid : uuid) (r : UserLists.row) (d d' : db) :
  update_list_item c lid r d = Ok d' ->
  c = Authenticated (UserLists.user_id r) /\ user_lists_check r = true /\
  (exists old, find_list_item lid d = Some old) /\
  existsb (user_lists_conflict r)
    (filter (fun x => negb (N.eqb (UserLists.id x) lid)) (user_lists d)) = false /\
  references_auth_users (UserLists.user_id r) d = true /\
  d' = set_user_lists d
         (map (fun x => if N.eqb (UserLists.id x) lid then r else x) (user_lists d)).
Proof.
  unfold update_list_item. intros H. guards.
  destruct (find_list_item lid d) as [old|] eqn:Hf; [|discriminate].
  guards. injection H as <-.
  rewrite rls_with_check_spec in H2 by auto. apply is_owner_true in H2.
  apply negb_true_iff in H4.
  repeat split; eauto.
Qed.

Lemma delete_list_item_ok (c : caller) (lid : uuid) (d d' : db) :
  delete_list_item c lid d = Ok d' ->
  d' = set_user_lists d
         (filter (fun x => negb (N.eqb (UserLists.id x) lid)) (user_lists d)).
Proof.
  unfold delete_list_item. intros H. guards.
  destruct (find_list_item lid d) as [old|] eqn:Hf; [|discriminate].
  guards. injection H as <-. reflexivity.
Qed.

Lemma insert_auth_user_ok (NEW : AuthUsers.row) (d d' : db) :
  insert_auth_user NEW d = Ok d' ->
  references_auth_users (AuthUsers.id NEW) d = false /\
  d' = set_auth_users d (auth_users d ++ [NEW]).
Proof.
  unfold insert_auth_user. intros H. guards.
  apply negb_true_iff in H0. injection H as <-. auto.
Qed.

(** A signup that commits added the identity and, with it, the profile
    that [handle_new_user] builds; the other two tables are as they were. *)
Lemma create_identity_ok (NEW : AuthUsers.row) (now : timestamptz) (d d' : db) :
  create_identity NEW now d = Ok d' ->
  references_auth_users (AuthUsers.id NEW) d = false /\
  existsb (profiles_conflict
             (Profiles.mk (AuthUsers.id NEW) (derived_username NEW) None
                (Some now) (Some now))) (profiles d) = false /\
  d' = mkdb (auth_users d ++ [NEW])
            (profiles d ++
               [Profiles.mk (AuthUsers.id NEW) (derived_username NEW) None
                  (Some now) (Some now)])
            (reviews d) (user_lists d).
Proof.
  unfold create_identity. intros H.
  destruct (insert_auth_user NEW d) as [d1|e] eqn:Hi; simpl in H; [|discriminate].
  apply insert_auth_user_ok in Hi. destruct Hi as [Hfresh ->].
  unfold handle_new_user in H. apply store_profile_ok in H.
  destruct H as [Hc [_ ->]]. simpl in *. auto.
Qed.

(** ** Invariant: profiles and identities go together *)

Section KeyedLists.
Context {A : Type} (key : A -> uuid).

Lemma length_filter_key_removed (u u0 : uuid) (l : list A) :
  List.length (filter (fun x => N.eqb (key x) u)
                 (filter (fun x => negb (N.eqb (key x) u0)) l))
  = if N.eqb u u0 then 0 else List.length (filter (fun x => N.eqb (key x) u) l).
Proof.
  induction l as [|a l IH]; simpl.
  - destruct (N.eqb u u0); reflexivity.
  - destruct (N.eqb_spec (key a) u0) as [E0|E0]; simpl;
      destruct (N.eqb_spec (key a) u) as [E|E]; simpl;
      rewrite IH; destruct (N.eqb_spec u u0); congruence.
Qed.

Lemma existsb_key_removed (u u0 : uuid) (l : list A) :
  existsb (fun x => N.eqb (key x) u) (filter (fun x => negb (N.eqb (key x) u0)) l)
  = if N.eqb u u0 then false else existsb (fun x => N.eqb (key x) u) l.
Proof.
  induction l as [|a l IH]; simpl.
  - destruct (N.eqb u u0); reflexivity.
  - destruct (N.eqb_spec (key a) u0) as [E0|E0]; simpl.
    + rewrite IH. destruct (N.eqb_spec u u0) as [E|E]; [reflexivity|].
      destruct (N.eqb_spec (key a) u); [congruence | reflexivity].
    + rewrite IH. destruct (N.eqb_spec u u0) as [E|E]; [|reflexivity].
      destruct (N.eqb_spec (key a) u); [congruence | reflexivity].
Qed.

Lemma length_filter_key_map (f : A -> A) (u : uuid) (l : list A) :
  (forall x, key (f x) = key x) ->
  List.length (filter (fun x => N.eqb (key x) u) (map f l))
  = List.length (filter (fun x => N.eqb (key x) u) l).
Proof.
  intros Hf. induction l as [|a l IH]; simpl; [reflexivity|].
  rewrite Hf. destruct (N.eqb (key a) u); simpl; congruence.
Qed.

Lemma filter_key_absent (u : uuid) (l : list A) :
  existsb (fun x => N.eqb (key x) u) l = false ->
  filter (fun x => N.eqb (key x) u) l = [].
Proof.
  induction l as [|a l IH]; simpl; [reflexivity|].
  intros H. apply orb_false_iff in H. destruct H as [-> H]. auto.
Qed.
End KeyedLists.

Lemma no_conflict_no_profile (r : Profiles.row) (l : list Profiles.row) :
  existsb (profiles_conflict r) l = false ->
  existsb (fun x => N.eqb (Profiles.id x) (Profiles.id r)) l = false.
Proof.
  rewrite !existsb_false_forall. intros H x Hin.
  specialize (H x Hin). unfold profiles_conflict in H.
  apply orb_false_iff in H. tauto.
Qed.

Lemma profiles_match_create (NEW : AuthUsers.row) (now : timestamptz) (d d' : db) :
  create_identity NEW now d = Ok d' ->
  profiles_match_identities d -> profiles_match_identities d'.
Proof.
  intros H Inv u. apply create_identity_ok in H. destruct H as [Hfresh [_ ->]].
  specialize (Inv u). unfold profile_count, references_auth_users in *. simpl.
  rewrite filter_app, length_app, existsb_app. simpl.
  destruct (N.eqb_spec (AuthUsers.id NEW) u) as [E|E]; simpl.
  - subst u. unfold references_auth_users in Hfresh. rewrite Hfresh in *.
    rewrite Inv. reflexivity.
  - rewrite Inv, orb_false_r. lia.
Qed.

Lemma profiles_match_delete_identity (u0 : uuid) (d : db) :
  profiles_match_identities d -> profiles_match_identities (delete_identity u0 d).
Proof.
  intros Inv u. specialize (Inv u).
  unfold profile_count, references_auth_users in *. simpl.
  rewrite (length_filter_key_removed Profiles.id), (existsb_key_removed AuthUsers.id).
  destruct (N.eqb u u0); [reflexivity | exact Inv].
Qed.

Lemma profiles_match_exec (s : stmt) (d d' : db) :
  exec s d = Ok d' ->
  profiles_match_identities d -> profiles_match_identities d'.
Proof.
  destruct s; simpl; intros H Inv.
  - eapply profiles_match_create; eauto.
  - injection H as <-. apply profiles_match_delete_identity; assumption.
  - apply insert_profile_ok in H. destruct H as [_ H].
    apply store_profile_ok in H. destruct H as [Hc [Hfk _]].
    apply no_conflict_no_profile in Hc.
    specialize (Inv (Profiles.id r)). unfold profile_count in Inv.
    rewrite (filter_key_absent Profiles.id _ _ Hc), Hfk in Inv. discriminate.
  - apply update_profile_ok in H. destruct H as [_ [Hid [_ [_ ->]]]].
    intros u. specialize (Inv u). unfold profile_count in *. simpl.
    rewrite (length_filter_key_map Profiles.id); [exact Inv|].
    intros x. destruct (N.eqb_spec (Profiles.id x) pid); congruence.
  - destruct (delete_profile_fails c pid d) as [e He]. congruence.
  - apply insert_review_ok in H. destruct H as [_ [_ [_ [_ ->]]]]. exact Inv.
  - apply update_review_ok in H. destruct H as [_ [_ [_ [_ [_ ->]]]]]. exact Inv.
  - apply delete_review_ok in H. destruct H as [_ ->]. exact Inv.
  - apply insert_list_item_ok in H. destruct H as [_ [_ [_ [_ ->]]]]. exact Inv.
  - apply update_list_item_ok in H. destruct H as [_ [_ [_ [_ [_ ->]]]]]. exact Inv.
  - apply delete_list_item_ok in H. subst d'. exact Inv.
Qed.

(** An invariant of the committed statements holds in every reachable
    state. *)
Lemma reachable_ind_exec (P : db -> Prop) :
  P empty_db ->
  (forall s d d', exec s d = Ok d' -> P d -> P d') ->
  forall d, reachable d -> P d.
Proof.
  intros H0 Hstep d Hr. induction Hr as [|s d Hr IH]; [exact H0|].
  unfold run. destruct (exec s d) as [d'|e] eqn:E; simpl; [|exact IH].
  eapply Hstep; eauto.
Qed.

Lemma reachable_profiles_match (d : db) :
  reachable d -> profiles_match_identities d.
Proof.
  apply reachable_ind_exec.
  - intros u. reflexivity.
  - apply profiles_match_exec.
Qed.

Lemma reachable_run_all (l : list stmt) (d : db) :
  reachable d -> reachable (run_all l d).
Proof.
  revert d. induction l as [|s l IH]; simpl; intros d Hr; [exact Hr|].
  apply IH. apply reachable_run. exact Hr.
Qed.

Lemma identity_is_referenced (a : AuthUsers.row) (d : db) :
  In a (auth_users d) -> references_auth_users (AuthUsers.id a) d = true.
Proof.
  intros Hin. unfold references_auth_users. apply existsb_exists.
  exists a. split; [exact Hin | apply N.eqb_refl].
Qed.

Lemma find_of_filter_one {A : Type} (f : A -> bool) (l : list A) :
  List.length (filter f l) = 1 -> exists x, find f l = Some x.
Proof.
  induction l as [|a l IH]; simpl; [discriminate|].
  destruct (f a); [eauto | exact IH].
Qed.

Lemma existsb_of_filter_none {A : Type} (f : A -> bool) (l : list A) :
  List.length (filter f l) = 0 -> existsb f l = false.
Proof.
  induction l as [|a l IH]; simpl; [reflexivity|].
  destruct (f a); simpl; [discriminate | exact IH].
Qed.

(** C4: in every reachable state each identity has exactly one profile row,
    stored under the identity's id.  Signup is one statement: when the
    trigger's insert raises after the identity row went in, the signup
    raises the same error and the database is as before; when it commits,
    the identity and its profile are there together. *)
Theorem every_identity_has_its_profile (d : db) :
  reachable d ->
  every_identity_has_one_profile d /\
  (forall a, In a (auth_users d) ->
     exists p, find_profile (AuthUsers.id a) d = Some p /\
               Profiles.id p = AuthUsers.id a) /\
  (forall NEW now d1 e,
     insert_auth_user NEW d = Ok d1 ->
     handle_new_user NEW now d1 = Err e ->
     create_identity NEW now d = Err e /\ run (CreateIdentity NEW now) d = d) /\
  (forall NEW now d',
     create_identity NEW now d = Ok d' ->
     In NEW (auth_users d') /\ profile_count (AuthUsers.id NEW) d' = 1).
Proof.
  intros Hr. pose proof (reachable_profiles_match d Hr) as Inv.
  assert (Hone : every_identity_has_one_profile d).
  { intros a Hin. rewrite (Inv (AuthUsers.id a)), (identity_is_referenced a d Hin).
    reflexivity. }
  split; [exact Hone|]. split; [|split].
  - intros a Hin. pose proof (Hone a Hin) as Hc.
    unfold profile_count in Hc. apply find_of_filter_one in Hc.
    destruct Hc as [p Hp]. exists p. split; [exact Hp|].
    apply find_id_eq in Hp. tauto.
  - intros NEW now d1 e Hi Ht.
    assert (Hc : create_identity NEW now d = Err e)
      by (unfold create_identity; rewrite Hi; exact Ht).
    split; [exact Hc|]. unfold run; simpl. rewrite Hc. reflexivity.
  - intros NEW now d' Hc.
    assert (Inv' : profiles_match_identities d')
      by (eapply profiles_match_create; eauto).
    apply create_identity_ok in Hc. destruct Hc as [_ [_ ->]].
    assert (Hin : In NEW (auth_users
                   (mkdb (auth_users d ++ [NEW])
                      (profiles d ++
                         [Profiles.mk (AuthUsers.id NEW) (derived_username NEW) None
                            (Some now) (Some now)])
                      (reviews d) (user_lists d))))
      by (simpl; apply in_or_app; right; left; reflexivity).
    split; [exact Hin|].
    rewrite (Inv' (AuthUsers.id NEW)), (identity_is_referenced _ _ Hin). reflexivity.
Qed.

Lemma every_identity_has_its_profile_witness :
  profile_count Scenario.A Scenario.state = 1 /\
  profile_count Scenario.B Scenario.state = 1.
Proof.
  destruct (every_identity_has_its_profile Scenario.state) as [H _].
  - apply reachable_run_all. apply reachable_empty.
  - split.
    + apply (H Scenario.alice). simpl. auto.
    + apply (H Scenario.bob). simpl. auto.
Defined.

(** ** The derived username *)

Lemma split_fields_local (local rest : string) :
  free_of "@"%char local = true ->
  split_fields "@"%char (local ++ String "@"%char rest)
  = local :: split_fields "@"%char rest.
Proof.
  induction local as [|ch local IH]; simpl; intros H; [reflexivity|].
  apply andb_true_iff in H. destruct H as [Hch Hl].
  apply negb_true_iff in Hch. rewrite Hch, (IH Hl). reflexivity.
Qed.

Lemma derived_username_metadata (NEW : AuthUsers.row) (s : string) :
  json_get_text (AuthUsers.raw_user_meta_data NEW) "username" = Some s ->
  derived_username NEW = Some s.
Proof. unfold derived_username. intros ->. reflexivity. Qed.

Lemma derived_username_email (NEW : AuthUsers.row) (local rest : string) :
  json_get_text (AuthUsers.raw_user_meta_data NEW) "username" = None ->
  AuthUsers.email NEW = Some (local ++ String "@"%char rest)%string ->
  free_of "@"%char local = true ->
  derived_username NEW = Some local.
Proof.
  unfold derived_username. intros -> -> Hfree. simpl.
  rewrite (split_fields_local local rest Hfree). reflexivity.
Qed.

(** C5: the profile a signup provisions has the new identity's id, and its
    username is the metadata username when there is one, and otherwise the
    text of the email before its [@].  Signing up alice@example.com without
    metadata on the empty database gives the profile (A, "alice"). *)
Theorem provisioned_profile_username :
  (forall (NEW : AuthUsers.row) (now : timestamptz) (d d' : db),
     create_identity NEW now d = Ok d' ->
     exists p,
       profiles d' = profiles d ++ [p] /\
       Profiles.id p = AuthUsers.id NEW /\
       (forall s,
          json_get_text (AuthUsers.raw_user_meta_data NEW) "username" = Some s ->
          Profiles.username p = Some s) /\
       (json_get_text (AuthUsers.raw_user_meta_data NEW) "username" = None ->
        forall local rest,
          AuthUsers.email NEW = Some (local ++ String "@"%char rest)%string ->
          free_of "@"%char local = true ->
          Profiles.username p = Some local)) /\
  (forall now : timestamptz,
     create_identity Scenario.alice now empty_db
     = Ok (mkdb [Scenario.alice]
             [Profiles.mk Scenario.A (Some "alice") None (Some now) (Some now)]
             [] [])).
Proof.
  split.
  - intros NEW now d d' H. apply create_identity_ok in H. destruct H as [_ [_ ->]].
    eexists. split; [reflexivity|]. split; [reflexivity|]. simpl. split.
    + apply derived_username_metadata.
    + intros Hm local rest He Hf. eapply derived_username_email; eauto.
  - intros now. reflexivity.
Qed.

Lemma provisioned_profile_username_witness :
  exists p,
    profiles (run_all Scenario.signups empty_db)
      = profiles (run (CreateIdentity Scenario.alice 1%Z) empty_db) ++ [p] /\
    Profiles.id p = Scenario.B /\
    Profiles.username p = Some "bobby".
Proof.
  destruct (proj1 provisioned_profile_username Scenario.bob 2%Z
              (run (CreateIdentity Scenario.alice 1%Z) empty_db)
              (run_all Scenario.signups empty_db))
    as [p [Hp [Hid [Hm _]]]].
  - reflexivity.
  - exists p. split; [exact Hp|]. split; [exact Hid|]. apply Hm. reflexivity.
Defined.

(** ** Signup against the username constraint *)

Lemma username_conflict (r p : Profiles.row) (s : string) (l : list Profiles.row) :
  In p l -> Profiles.username p = Some s -> Profiles.username r = Some s ->
  existsb (profiles_conflict r) l = true.
Proof.
  intros Hin Hp Hr. apply existsb_exists. exists p. split; [exact Hin|].
  unfold profiles_conflict. rewrite Hp, Hr. simpl.
  rewrite String.eqb_refl. apply orb_true_r.
Qed.

(** C9: when the username derived for a new identity is the one an
    existing profile carries, the trigger's insert raises a unique
    violation, the signup raises it too, nothing stands in for the insert,
    and the database is left without the identity and without a profile
    for it: it is the database from before. *)
Theorem username_collision_aborts_signup
    (NEW : AuthUsers.row) (now : timestamptz) (d : db) (p : Profiles.row) (s : string) :
  In p (profiles d) ->
  Profiles.username p = Some s ->
  derived_username NEW = Some s ->
  (forall d1, insert_auth_user NEW d = Ok d1 ->
     handle_new_user NEW now d1 = Err UniqueViolation) /\
  create_identity NEW now d = Err UniqueViolation /\
  run (CreateIdentity NEW now) d = d.
Proof.
  intros Hin Hp Hs.
  assert (Ht : forall d1, insert_auth_user NEW d = Ok d1 ->
                 handle_new_user NEW now d1 = Err UniqueViolation).
  { intros d1 Hi. apply insert_auth_user_ok in Hi. destruct Hi as [_ ->].
    unfold handle_new_user, store_profile. simpl.
    rewrite (username_conflict
               (Profiles.mk (AuthUsers.id NEW) (derived_username NEW) None
                  (Some now) (Some now))
               p s (profiles d) Hin Hp Hs).
    reflexivity. }
  assert (Hc : create_identity NEW now d = Err UniqueViolation).
  { unfold create_identity.
    destruct (insert_auth_user NEW d) as [d1|e] eqn:Hi; simpl.
    - apply Ht. reflexivity.
    - unfold insert_auth_user in Hi.
      destruct (references_auth_users (AuthUsers.id NEW) d); simpl in Hi; congruence. }
  split; [exact Ht|]. split; [exact Hc|].
  unfold run; simpl. rewrite Hc. reflexivity.
Qed.

Lemma username_collision_aborts_signup_witness :
  create_identity (AuthUsers.mk 3%N (Some "alice@elsewhere.org") None) 9%Z Scenario.state
    = Err UniqueViolation /\
  run (CreateIdentity (AuthUsers.mk 3%N (Some "alice@elsewhere.org") None) 9%Z)
    Scenario.state = Scenario.state.
Proof.
  destruct (username_collision_aborts_signup
              (AuthUsers.mk 3%N (Some "alice@elsewhere.org") None) 9%Z Scenario.state
              (Profiles.mk Scenario.A (Some "alice") None (Some 1%Z) (Some 1%Z)) "alice")
    as [_ [Hc Hrun]].
  - simpl. auto.
  - reflexivity.
  - reflexivity.
  - split; [exact Hc | exact Hrun].
Defined.

(** A signup whose derived username is NULL commits in any state where
    profiles and identities go together, provided the id is new. *)
Lemma signup_without_username_commits (NEW : AuthUsers.row) (now : timestamptz) (d : db) :
  profiles_match_identities d ->
  derived_username NEW = None ->
  references_auth_users (AuthUsers.id NEW) d = false ->
  create_identity NEW now d
  = Ok (mkdb (auth_users d ++ [NEW])
          (profiles d ++ [Profiles.mk (AuthUsers.id NEW) None None (Some now) (Some now)])
          (reviews d) (user_lists d)).
Proof.
  intros Inv Hn Hfresh.
  unfold create_identity, insert_auth_user. rewrite Hfresh. simpl.
  unfold handle_new_user, store_profile. rewrite Hn. simpl.
  assert (Hc : existsb
                 (profiles_conflict
                    (Profiles.mk (AuthUsers.id NEW) None None (Some now) (Some now)))
                 (profiles d) = false).
  { apply existsb_false_forall. intros x Hx. unfold profiles_conflict. simpl.
    specialize (Inv (AuthUsers.id NEW)). rewrite Hfresh in Inv.
    apply existsb_of_filter_none in Inv.
    rewrite existsb_false_forall in Inv. rewrite (Inv x Hx).
    destruct (Profiles.username x); reflexivity. }
  rewrite Hc. simpl.
  unfold references_auth_users. simpl. rewrite existsb_app. simpl.
  rewrite N.eqb_refl, orb_true_r. reflexivity.
Qed.

Lemma bare_identity_fresh (n : nat) :
  existsb (fun a => N.eqb (AuthUsers.id a) (N.of_nat n)) (map bare_identity (seq 0 n))
  = false.
Proof.
  apply existsb_false_forall. intros a Ha.
  apply in_map_iff in Ha. destruct Ha as [i [<- Hi]].
  apply in_seq in Hi. simpl. apply N.eqb_neq. lia.
Qed.

Lemma run_all_app (l1 l2 : list stmt) (d : db) :
  run_all (l1 ++ l2) d = run_all l2 (run_all l1 d).
Proof. unfold run_all. apply fold_left_app. Qed.

Lemma bare_signups_state (n : nat) :
  run_all (bare_signups n) empty_db
  = mkdb (map bare_identity (seq 0 n))
         (map (fun i => Profiles.mk (N.of_nat i) None None (Some 0%Z) (Some 0%Z))
              (seq 0 n))
         [] [].
Proof.
  induction n as [|n IH]; [reflexivity|].
  unfold bare_signups in *. rewrite seq_S, map_app, run_all_app, IH. simpl.
  unfold run. simpl.
  rewrite signup_without_username_commits.
  - simpl. rewrite !map_app. reflexivity.
  - rewrite <- IH. apply reachable_profiles_match.
    apply reachable_run_all. apply reachable_empty.
  - reflexivity.
  - apply bare_identity_fresh.
Qed.

(** C10: a new identity with neither a metadata username nor an email is
    provisioned all the same, with a profile whose username is NULL; and
    NULL usernames do not collide: any number [n] of such signups commit
    one after the other and leave [n] profiles with no username. *)
Theorem null_username_signups :
  (forall (NEW : AuthUsers.row) (now : timestamptz) (d : db),
     reachable d ->
     json_get_text (AuthUsers.raw_user_meta_data NEW) "username" = None ->
     AuthUsers.email NEW = None ->
     references_auth_users (AuthUsers.id NEW) d = false ->
     create_identity NEW now d
     = Ok (mkdb (auth_users d ++ [NEW])
             (profiles d ++
                [Profiles.mk (AuthUsers.id NEW) None None (Some now) (Some now)])
             (reviews d) (user_lists d))) /\
  (forall n : nat,
     List.length (auth_users (run_all (bare_signups n) empty_db)) = n /\
     List.length (profiles (run_all (bare_signups n) empty_db)) = n /\
     forall p, In p (profiles (run_all (bare_signups n) empty_db)) ->
               Profiles.username p = None).
Proof.
  split.
  - intros NEW now d Hr Hm He Hfresh. apply signup_without_username_commits.
    + apply reachable_profiles_match. exact Hr.
    + unfold derived_username. rewrite Hm, He. reflexivity.
    + exact Hfresh.
  - intros n. rewrite bare_signups_state. simpl.
    rewrite !length_map, length_seq. split; [reflexivity|]. split; [reflexivity|].
    intros p Hp. apply in_map_iff in Hp. destruct Hp as [i [<- _]]. reflexivity.
Qed.

Lemma null_username_signups_witness :
  create_identity (AuthUsers.mk 3%N None None) 9%Z Scenario.state
  = Ok (mkdb (auth_users Scenario.state ++ [AuthUsers.mk 3%N None None])
          (profiles Scenario.state ++
             [Profiles.mk 3%N None None (Some 9%Z) (Some 9%Z)])
          (reviews Scenario.state) (user_lists Scenario.state)).
Proof.
  apply (proj1 null_username_signups (AuthUsers.mk 3%N None None) 9%Z Scenario.state).
  - apply reachable_run_all. apply reachable_empty.
  - reflexivity.
  - reflexivity.
  - reflexivity.
Defined.

(** ** Unique keys *)

Lemma reviews_key_conflict (r old : Reviews.row) (l : list Reviews.row) :
  In old l ->
  Reviews.user_id old = Reviews.user_id r ->
  Reviews.media_type old = Reviews.media_type r ->
  Reviews.media_id old = Reviews.media_id r ->
  existsb (reviews_conflict r) l = true.
Proof.
  intros Hin Hu Ht Hm. apply existsb_exists. exists old. split; [exact Hin|].
  unfold reviews_conflict, reviews_same_key. rewrite Hu, Ht, Hm.
  rewrite N.eqb_refl, !String.eqb_refl. apply orb_true_r.
Qed.

Lemma user_lists_key_conflict (r old : UserLists.row) (l : list UserLists.row) :
  In old l ->
  UserLists.user_id old = UserLists.user_id r ->
  UserLists.list_type old = UserLists.list_type r ->
  UserLists.media_type old = UserLists.media_type r ->
  UserLists.media_id old = UserLists.media_id r ->
  existsb (user_lists_conflict r) l = true.
Proof.
  intros Hin Hu Hl Ht Hm. apply existsb_exists. exists old. split; [exact Hin|].
  unfold user_lists_conflict, user_lists_same_key. rewrite Hu, Hl, Ht, Hm.
  rewrite N.eqb_refl, !String.eqb_refl. apply orb_true_r.
Qed.

(** C3: a row whose (user_id, media_type, media_id) is that of a stored
    review, whose (user_id, list_type, media_type, media_id) is that of a
    stored list item, or whose non-null username is that of a stored
    profile, is never inserted, whoever the caller: the statement fails and
    the database, so the stored row and its rating too, is as it was.  When
    the signed-in owner [u] inserts it and it is well-formed for the
    table's CHECK constraints, the failure is [UniqueViolation]. *)
Theorem duplicate_key_insert_rejected (d : db) (u : uuid) :
  (forall old r c,
     In old (reviews d) ->
     Reviews.user_id old = u -> Reviews.user_id r = u ->
     Reviews.media_type r = Reviews.media_type old ->
     Reviews.media_id r = Reviews.media_id old ->
     (reviews_check r = true ->
      insert_review (Authenticated u) r d = Err UniqueViolation) /\
     (exists e, insert_review c r d = Err e) /\
     run (InsertReview c r) d = d /\
     In old (reviews (run (InsertReview c r) d))) /\
  (forall old l c,
     In old (user_lists d) ->
     UserLists.user_id old = u -> UserLists.user_id l = u ->
     UserLists.list_type l = UserLists.list_type old ->
     UserLists.media_type l = UserLists.media_type old ->
     UserLists.media_id l = UserLists.media_id old ->
     (user_lists_check l = true ->
      insert_list_item (Authenticated u) l d = Err UniqueViolation) /\
     (exists e, insert_list_item c l d = Err e) /\
     run (InsertListItem c l) d = d /\
     In old (user_lists (run (InsertListItem c l) d))) /\
  (forall old p s c,
     In old (profiles d) ->
     Profiles.username old = Some s -> Profiles.username p = Some s ->
     Profiles.id p = u ->
     insert_profile (Authenticated u) p d = Err UniqueViolation /\
     (exists e, insert_profile c p d = Err e) /\
     run (InsertProfile c p) d = d /\
     In old (profiles (run (InsertProfile c p) d))).
Proof.
  split; [|split].
  - intros old r c Hin Ho Hr Ht Hm.
    assert (Hdup : existsb (reviews_conflict r) (reviews d) = true)
      by (apply (reviews_key_conflict r old); auto; congruence).
    assert (E : exists e, insert_review c r d = Err e).
    { destruct (insert_review c r d) as [d'|e] eqn:Hi; [|eauto].
      apply insert_review_ok in Hi. destruct Hi as [_ [_ [Hfree _]]]. congruence. }
    split; [|split; [exact E|]].
    + intros Hc. unfold insert_review. rewrite rls_with_check_spec by auto.
      rewrite is_owner_authenticated, Hr, N.eqb_refl, Hc, Hdup. reflexivity.
    + destruct E as [e E]. unfold run; simpl. rewrite E. simpl. auto.
  - intros old l c Hin Ho Hl Hlt Ht Hm.
    assert (Hdup : existsb (user_lists_conflict l) (user_lists d) = true)
      by (apply (user_lists_key_conflict l old); auto; congruence).
    assert (E : exists e, insert_list_item c l d = Err e).
    { destruct (insert_list_item c l d) as [d'|e] eqn:Hi; [|eauto].
      apply insert_list_item_ok in Hi. destruct Hi as [_ [_ [Hfree _]]]. congruence. }
    split; [|split; [exact E|]].
    + intros Hc. unfold insert_list_item. rewrite rls_with_check_spec by auto.
      rewrite is_owner_authenticated, Hl, N.eqb_refl, Hc, Hdup. reflexivity.
    + destruct E as [e E]. unfold run; simpl. rewrite E. simpl. auto.
  - intros old p s c Hin Ho Hp Hid.
    assert (Hdup : existsb (profiles_conflict p) (profiles d) = true)
      by (apply (username_conflict p old s); assumption).
    assert (E : exists e, insert_profile c p d = Err e).
    { destruct (insert_profile c p d) as [d'|e] eqn:Hi; [|eauto].
      apply insert_profile_ok in Hi. destruct Hi as [_ Hi].
      apply store_profile_ok in Hi. destruct Hi as [Hfree _]. congruence. }
    split; [|split; [exact E|]].
    + unfold insert_profile, store_profile. rewrite rls_with_check_spec by auto.
      rewrite is_owner_authenticated, Hid, N.eqb_refl, Hdup. reflexivity.
    + destruct E as [e E]. unfold run; simpl. rewrite E. simpl. auto.
Qed.

Lemma duplicate_key_insert_rejected_witness :
  insert_review (Authenticated Scenario.A) Scenario.review5 Scenario.state
    = Err UniqueViolation /\
  In Scenario.review8
    (reviews (run (InsertReview (Authenticated Scenario.A) Scenario.review5)
                Scenario.state)).
Proof.
  destruct (proj1 (duplicate_key_insert_rejected Scenario.state Scenario.A)
              Scenario.review8 Scenario.review5 (Authenticated Scenario.A))
    as [E [_ [_ Hin]]].
  - simpl. auto.
  - reflexivity.
  - reflexivity.
  - reflexivity.
  - reflexivity.
  - split; [apply E; reflexivity | exact Hin].
Defined.

(** C8: once identity [u] has put a media item on one of its lists, a
    second row for the same item whose id and key are otherwise free goes
    in when it names another, valid, list type, and is rejected with
    [UniqueViolation] only when it names the same list type. *)
Theorem same_media_in_several_lists
    (d d1 : db) (u : uuid) (r1 r2 : UserLists.row) :
  insert_list_item (Authenticated u) r1 d = Ok d1 ->
  UserLists.user_id r2 = u ->
  UserLists.media_type r2 = UserLists.media_type r1 ->
  UserLists.media_id r2 = UserLists.media_id r1 ->
  UserLists.id r2 <> UserLists.id r1 ->
  existsb (user_lists_conflict r2) (user_lists d) = false ->
  (UserLists.list_type r2 <> UserLists.list_type r1 ->
   list_type_check (UserLists.list_type r2) = true ->
   insert_list_item (Authenticated u) r2 d1
   = Ok (set_user_lists d (user_lists d ++ [r1; r2]))) /\
  (UserLists.list_type r2 = UserLists.list_type r1 ->
   insert_list_item (Authenticated u) r2 d1 = Err UniqueViolation).
Proof.
  intros H1 Hu Ht Hm Hid Hfree.
  apply insert_list_item_ok in H1. destruct H1 as [Hc [Hck [_ [Hfk ->]]]].
  injection Hc as Hu1. subst u.
  unfold user_lists_check in Hck. apply andb_true_iff in Hck.
  destruct Hck as [Hlt1 Hmt1].
  assert (Hid' : N.eqb (UserLists.id r1) (UserLists.id r2) = false)
    by (apply N.eqb_neq; congruence).
  split.
  - intros Hlt Hltc. unfold insert_list_item.
    rewrite rls_with_check_spec by auto.
    rewrite is_owner_authenticated, Hu, N.eqb_refl. simpl.
    unfold user_lists_check. rewrite Hltc, Ht, Hmt1. simpl.
    rewrite existsb_app, Hfree. simpl.
    unfold user_lists_conflict, user_lists_same_key. rewrite Hid'.
    assert (Hl : String.eqb (UserLists.list_type r1) (UserLists.list_type r2) = false)
      by (apply String.eqb_neq; congruence).
    rewrite Hl, andb_false_r. simpl.
    unfold references_auth_users in *. simpl. rewrite Hfk. simpl.
    unfold set_user_lists. simpl. rewrite <- app_assoc. reflexivity.
  - intros Hlt. unfold insert_list_item.
    rewrite rls_with_check_spec by auto.
    rewrite is_owner_authenticated, Hu, N.eqb_refl. simpl.
    unfold user_lists_check. rewrite Hlt, Hlt1, Ht, Hmt1. simpl.
    rewrite (user_lists_key_conflict r2 r1); [reflexivity | | | | |]; try congruence.
    apply in_or_app. right. left. reflexivity.
Qed.

Lemma same_media_in_several_lists_witness :
  insert_list_item (Authenticated Scenario.A) Scenario.fav
    (run_all (Scenario.signups ++ [InsertListItem (Authenticated Scenario.A) Scenario.watch])
       empty_db)
  = Ok (set_user_lists (run_all Scenario.signups empty_db) [Scenario.watch; Scenario.fav]).
Proof.
  apply (same_media_in_several_lists (run_all Scenario.signups empty_db)
           (run_all (Scenario.signups ++
                       [InsertListItem (Authenticated Scenario.A) Scenario.watch])
              empty_db)
           Scenario.A Scenario.watch Scenario.fav).
  - reflexivity.
  - reflexivity.
  - reflexivity.
  - reflexivity.
  - discriminate.
  - reflexivity.
  - discriminate.
  - reflexivity.
Defined.

(** ** Invariant: stored reviews meet the CHECK constraints *)

Lemma reviews_checked_exec (s : stmt) (d d' : db) :
  exec s d = Ok d' -> reviews_checked d -> reviews_checked d'.
Proof.
  destruct s; simpl; intros H Inv.
  - apply create_identity_ok in H. destruct H as [_ [_ ->]]. exact Inv.
  - injection H as <-. intros x Hx. simpl in Hx.
    apply filter_In in Hx. apply Inv. tauto.
  - apply insert_profile_ok in H. destruct H as [_ H].
    apply store_profile_ok in H. destruct H as [_ [_ ->]]. exact Inv.
  - apply update_profile_ok in H. destruct H as [_ [_ [_ [_ ->]]]]. exact Inv.
  - destruct (delete_profile_fails c pid d) as [e He]. congruence.
  - apply insert_review_ok in H. destruct H as [_ [Hc [_ [_ ->]]]].
    intros x Hx. simpl in Hx. apply in_app_or in Hx.
    destruct Hx as [Hx | [<- | []]]; [apply Inv; exact Hx | exact Hc].
  - apply update_review_ok in H. destruct H as [_ [Hc [_ [_ [_ ->]]]]].
    intros x Hx. simpl in Hx. apply in_map_iff in Hx. destruct Hx as [y [<- Hy]].
    destruct (N.eqb (Reviews.id y) rid); [exact Hc | apply Inv; exact Hy].
  - apply delete_review_ok in H. destruct H as [_ ->].
    intros x Hx. simpl in Hx. apply filter_In in Hx. apply Inv. tauto.
  - apply insert_list_item_ok in H. destruct H as [_ [_ [_ [_ ->]]]]. exact Inv.
  - apply update_list_item_ok in H. destruct H as [_ [_ [_ [_ [_ ->]]]]]. exact Inv.
  - apply delete_list_item_ok in H. subst d'. exact Inv.
Qed.

Lemma reachable_reviews_checked (d : db) : reachable d -> reviews_checked d.
Proof.
  apply reachable_ind_exec.
  - intros r [].
  - apply reviews_checked_exec.
Qed.

Lemma rating_check_range (n : Z) : rating_check n = true <-> (1 <= n <= 10)%Z.
Proof. unfold rating_check. rewrite andb_true_iff, !Z.leb_le. tauto. Qed.

Lemma media_type_check_enum (s : string) :
  media_type_check s = true <-> s = "movie" \/ s = "book" \/ s = "show".
Proof.
  unfold media_type_check. simpl. rewrite !orb_true_iff, !String.eqb_eq.
  split; [intros [H | [H | [H | H]]] | intros [H | [H | H]]]; auto; discriminate.
Qed.

(** C7: for the signed-in owner of the new row, a review insert with rating
    0 or 11, or with a media type outside movie, book and show, "podcast"
    among them, fails with [CheckViolation]; with rating 1 or 10, a listed
    media type, a free id and key and an existing identity it commits.  No
    caller gets an ill-formed row in, by insert or by update, and in every
    reachable state every stored review has its rating in 1..10 and its
    media type in the enumeration. *)
Theorem review_checks_enforced :
  (forall (d : db) (u : uuid) (r : Reviews.row),
     Reviews.user_id r = u ->
     (Reviews.rating r = 0%Z \/ Reviews.rating r = 11%Z \/
      Reviews.media_type r = "podcast" \/
      media_type_check (Reviews.media_type r) = false) ->
     insert_review (Authenticated u) r d = Err CheckViolation) /\
  (forall (d : db) (u : uuid) (r : Reviews.row),
     Reviews.user_id r = u ->
     (Reviews.rating r = 1%Z \/ Reviews.rating r = 10%Z) ->
     media_type_check (Reviews.media_type r) = true ->
     existsb (reviews_conflict r) (reviews d) = false ->
     references_auth_users u d = true ->
     insert_review (Authenticated u) r d = Ok (set_reviews d (reviews d ++ [r]))) /\
  (forall (c : caller) (rid : uuid) (r : Reviews.row) (d d' : db),
     insert_review c r d = Ok d' \/ update_review c rid r d = Ok d' ->
     reviews_check r = true) /\
  (forall d : db,
     reachable d ->
     forall r, In r (reviews d) ->
       (1 <= Reviews.rating r <= 10)%Z /\
       (Reviews.media_type r = "movie" \/ Reviews.media_type r = "book" \/
        Reviews.media_type r = "show")).
Proof.
  split; [|split; [|split]].
  - intros d u r Hu Hbad.
    assert (Hc : reviews_check r = false).
    { unfold reviews_check.
      destruct Hbad as [H | [H | [H | H]]]; rewrite H;
        try reflexivity; apply andb_false_r. }
    unfold insert_review. rewrite rls_with_check_spec by auto.
    rewrite is_owner_authenticated, Hu, N.eqb_refl, Hc. reflexivity.
  - intros d u r Hu Hr Hm Hfree Hfk.
    assert (Hc : reviews_check r = true).
    { unfold reviews_check. rewrite Hm. destruct Hr as [-> | ->]; reflexivity. }
    unfold insert_review. rewrite rls_with_check_spec by auto.
    rewrite is_owner_authenticated, Hu, N.eqb_refl, Hc, Hfree, Hfk. reflexivity.
  - intros c rid r d d' [H | H].
    + apply insert_review_ok in H. tauto.
    + apply update_review_ok in H. tauto.
  - intros d Hr r Hin. apply reachable_reviews_checked in Hr.
    specialize (Hr r Hin). unfold reviews_check in Hr.
    apply andb_true_iff in Hr. destruct Hr as [Hm Hrt].
    split; [apply rating_check_range | apply media_type_check_enum]; assumption.
Qed.

Lemma review_checks_enforced_witness :
  insert_review (Authenticated Scenario.A)
    (Reviews.mk 12%N Scenario.A "movie" "603" 0%Z None None None) Scenario.state
    = Err CheckViolation /\
  insert_review (Authenticated Scenario.A)
    (Reviews.mk 12%N Scenario.A "podcast" "603" 7%Z None None None) Scenario.state
    = Err CheckViolation /\
  insert_review (Authenticated Scenario.A)
    (Reviews.mk 12%N Scenario.A "movie" "603" 10%Z None None None) Scenario.state
    = Ok (set_reviews Scenario.state
            (reviews Scenario.state ++
               [Reviews.mk 12%N Scenario.A "movie" "603" 10%Z None None None])) /\
  (1 <= Reviews.rating Scenario.review8 <= 10)%Z.
Proof.
  destruct review_checks_enforced as [Hbad [Hgood [_ Hinv]]].
  split; [|split; [|split]].
  - apply Hbad; [reflexivity | left; reflexivity].
  - apply Hbad; [reflexivity | right; right; left; reflexivity].
  - apply Hgood; [reflexivity | right; reflexivity | reflexivity | reflexivity
                 | reflexivity].
  - apply (Hinv Scenario.state).
    + apply reachable_run_all. apply reachable_empty.
    + simpl. auto.
Defined.

(** ** Invariant: primary keys are unique *)

Section UniqueKeys.
Context {A : Type} (key : A -> uuid).

Lemma NoDup_keys_snoc (r : A) (l : list A) :
  NoDup (map key l) ->
  existsb (fun x => N.eqb (key x) (key r)) l = false ->
  NoDup (map key (l ++ [r])).
Proof.
  intros Hnd Hfree. rewrite existsb_false_forall in Hfree.
  induction l as [|a l IH]; simpl.
  - constructor; [intros [] | constructor].
  - simpl in Hnd. apply NoDup_cons_iff in Hnd. destruct Hnd as [Hna Hnd].
    constructor.
    + rewrite map_app, in_app_iff. intros [H | [H | []]]; [tauto|].
      specialize (Hfree a (or_introl eq_refl)).
      apply N.eqb_neq in Hfree. congruence.
    + apply IH; [exact Hnd|]. intros x Hx. apply Hfree. right. exact Hx.
Qed.

Lemma NoDup_keys_filter (f : A -> bool) (l : list A) :
  NoDup (map key l) -> NoDup (map key (filter f l)).
Proof.
  induction l as [|a l IH]; simpl; intros Hnd; [constructor|].
  apply NoDup_cons_iff in Hnd. destruct Hnd as [Hna Hnd].
  destruct (f a); simpl; [|auto].
  constructor; [|auto].
  intros Hin. apply Hna. apply in_map_iff in Hin. destruct Hin as [x [Hk Hx]].
  apply filter_In in Hx. apply in_map_iff. exists x. tauto.
Qed.

Lemma replace_absent_key (k : uuid) (r : A) (l : list A) :
  ~ In k (map key l) ->
  map (fun x => if N.eqb (key x) k then r else x) l = l.
Proof.
  induction l as [|a l IH]; simpl; intros Hn; [reflexivity|].
  destruct (N.eqb_spec (key a) k) as [E|E]; [tauto|].
  rewrite IH; [reflexivity | tauto].
Qed.

Lemma NoDup_keys_replace (k : uuid) (r : A) (l : list A) :
  NoDup (map key l) ->
  existsb (fun x => N.eqb (key x) (key r))
    (filter (fun x => negb (N.eqb (key x) k)) l) = false ->
  NoDup (map key (map (fun x => if N.eqb (key x) k then r else x) l)).
Proof.
  intros Hnd Hfree. rewrite existsb_false_forall in Hfree.
  assert (Hother : forall x, In x l -> key x <> k -> key x <> key r).
  { intros x Hx Hk. apply N.eqb_neq. apply Hfree. apply filter_In.
    split; [exact Hx|]. apply negb_true_iff. apply N.eqb_neq. exact Hk. }
  clear Hfree. induction l as [|a l IH]; simpl; [constructor|].
  simpl in Hnd. apply NoDup_cons_iff in Hnd. destruct Hnd as [Hna Hnd].
  destruct (N.eqb_spec (key a) k) as [E|E].
  - subst k. rewrite (replace_absent_key _ r l Hna). constructor; [|exact Hnd].
    intros Hin. apply in_map_iff in Hin. destruct Hin as [x [Hk Hx]].
    apply (Hother x); [right; exact Hx | | exact Hk].
    intros Hxa. apply Hna. apply in_map_iff. exists x. auto.
  - constructor.
    + intros Hin. apply in_map_iff in Hin. destruct Hin as [y [Hk Hy]].
      apply in_map_iff in Hy. destruct Hy as [x [Hxy Hx]].
      destruct (N.eqb_spec (key x) k) as [Ex|Ex].
      * subst y. apply (Hother a); [left; reflexivity | exact E | congruence].
      * subst y. apply Hna. apply in_map_iff. exists x. auto.
    + apply IH; [exact Hnd|]. intros x Hx. apply Hother. right. exact Hx.
Qed.

Lemma NoDup_keys_inj (l : list A) (x y : A) :
  NoDup (map key l) -> In x l -> In y l -> key x = key y -> x = y.
Proof.
  induction l as [|a l IH]; simpl; intros Hnd Hx Hy Hk; [tauto|].
  apply NoDup_cons_iff in Hnd. destruct Hnd as [Hna Hnd].
  destruct Hx as [<- | Hx], Hy as [<- | Hy]; auto.
  - exfalso. apply Hna. apply in_map_iff. exists y. auto.
  - exfalso. apply Hna. apply in_map_iff. exists x. auto.
Qed.
End UniqueKeys.

Lemma reviews_conflict_id (r : Reviews.row) (l : list Reviews.row) :
  existsb (reviews_conflict r) l = false ->
  existsb (fun x => N.eqb (Reviews.id x) (Reviews.id r)) l = false.
Proof.
  rewrite !existsb_false_forall. intros H x Hx. specialize (H x Hx).
  unfold reviews_conflict in H. apply orb_false_iff in H. tauto.
Qed.

Lemma user_lists_conflict_id (r : UserLists.row) (l : list UserLists.row) :
  existsb (user_lists_conflict r) l = false ->
  existsb (fun x => N.eqb (UserLists.id x) (UserLists.id r)) l = false.
Proof.
  rewrite !existsb_false_forall. intros H x Hx. specialize (H x Hx).
  unfold user_lists_conflict in H. apply orb_false_iff in H. tauto.
Qed.

Lemma primary_keys_unique_exec (s : stmt) (d d' : db) :
  exec s d = Ok d' -> primary_keys_unique d -> primary_keys_unique d'.
Proof.
  unfold primary_keys_unique.
  destruct s; simpl; intros H [Hr Hl].
  - apply create_identity_ok in H. destruct H as [_ [_ ->]]. auto.
  - injection H as <-. simpl. split; apply NoDup_keys_filter; assumption.
  - apply insert_profile_ok in H. destruct H as [_ H].
    apply store_profile_ok in H. destruct H as [_ [_ ->]]. auto.
  - apply update_profile_ok in H. destruct H as [_ [_ [_ [_ ->]]]]. auto.
  - destruct (delete_profile_fails c pid d) as [e He]. congruence.
  - apply insert_review_ok in H. destruct H as [_ [_ [Hc [_ ->]]]]. simpl.
    split; [|exact Hl]. apply NoDup_keys_snoc; [exact Hr|].
    apply reviews_conflict_id. exact Hc.
  - apply update_review_ok in H. destruct H as [_ [_ [_ [Hc [_ ->]]]]]. simpl.
    split; [|exact Hl]. apply NoDup_keys_replace; [exact Hr|].
    apply reviews_conflict_id. exact Hc.
  - apply delete_review_ok in H. destruct H as [_ ->]. simpl.
    split; [|exact Hl]. apply NoDup_keys_filter. exact Hr.
  - apply insert_list_item_ok in H. destruct H as [_ [_ [Hc [_ ->]]]]. simpl.
    split; [exact Hr|]. apply NoDup_keys_snoc; [exact Hl|].
    apply user_lists_conflict_id. exact Hc.
  - apply update_list_item_ok in H. destruct H as [_ [_ [_ [Hc [_ ->]]]]]. simpl.
    split; [exact Hr|]. apply NoDup_keys_replace; [exact Hl|].
    apply user_lists_conflict_id. exact Hc.
  - apply delete_list_item_ok in H. subst d'. simpl.
    split; [exact Hr|]. apply NoDup_keys_filter. exact Hl.
Qed.

Lemma reachable_primary_keys_unique (d : db) : reachable d -> primary_keys_unique d.
Proof.
  apply reachable_ind_exec.
  - split; constructor.
  - apply primary_keys_unique_exec.
Qed.

(** With unique keys, a row that a filter drops cannot be found by its key
    among the rows the filter keeps. *)
Lemma find_dropped_row {A : Type} (key : A -> uuid) (keep : A -> bool)
    (l : list A) (r : A) :
  NoDup (map key l) -> In r l -> keep r = false ->
  find (fun x => N.eqb (key x) (key r)) (filter keep l) = None.
Proof.
  intros Hnd Hin Hdrop.
  destruct (find (fun x => N.eqb (key x) (key r)) (filter keep l)) as [x|] eqn:Hf;
    [|reflexivity].
  apply find_some in Hf. destruct Hf as [Hx Hk].
  apply filter_In in Hx. destruct Hx as [Hx Hkeep]. apply N.eqb_eq in Hk.
  assert (x = r) by (eapply NoDup_keys_inj; eauto). subst x. congruence.
Qed.

(** ** Invariant: no orphaned rows *)

Lemma owners_exist_exec (s : stmt) (d d' : db) :
  exec s d = Ok d' -> owners_exist d -> owners_exist d'.
Proof.
  unfold owners_exist.
  destruct s; simpl; intros H [Hr Hl].
  - apply create_identity_ok in H. destruct H as [_ [_ ->]].
    unfold references_auth_users in *. simpl.
    split; intros x Hx; rewrite existsb_app; apply orb_true_iff; left; auto.
  - injection H as <-. unfold references_auth_users in *. simpl.
    split; intros x Hx; apply filter_In in Hx; destruct Hx as [Hx Hne];
      rewrite (existsb_key_removed AuthUsers.id);
      apply negb_true_iff in Hne; rewrite Hne; auto.
  - apply insert_profile_ok in H. destruct H as [_ H].
    apply store_profile_ok in H. destruct H as [_ [_ ->]]. auto.
  - apply update_profile_ok in H. destruct H as [_ [_ [_ [_ ->]]]]. auto.
  - destruct (delete_profile_fails c pid d) as [e He]. congruence.
  - apply insert_review_ok in H. destruct H as [_ [_ [_ [Hfk ->]]]].
    split; [|exact Hl]. intros x Hx. simpl in Hx. apply in_app_or in Hx.
    destruct Hx as [Hx | [<- | []]]; [apply Hr; exact Hx | exact Hfk].
  - apply update_review_ok in H. destruct H as [_ [_ [_ [_ [Hfk ->]]]]].
    split; [|exact Hl]. intros x Hx. simpl in Hx.
    apply in_map_iff in Hx. destruct Hx as [y [<- Hy]].
    destruct (N.eqb (Reviews.id y) rid); [exact Hfk | apply Hr; exact Hy].
  - apply delete_review_ok in H. destruct H as [_ ->].
    split; [|exact Hl]. intros x Hx. simpl in Hx. apply filter_In in Hx.
    apply Hr. tauto.
  - apply insert_list_item_ok in H. destruct H as [_ [_ [_ [Hfk ->]]]].
    split; [exact Hr|]. intros x Hx. simpl in Hx. apply in_app_or in Hx.
    destruct Hx as [Hx | [<- | []]]; [apply Hl; exact Hx | exact Hfk].
  - apply update_list_item_ok in H. destruct H as [_ [_ [_ [_ [Hfk ->]]]]].
    split; [exact Hr|]. intros x Hx. simpl in Hx.
    apply in_map_iff in Hx. destruct Hx as [y [<- Hy]].
    destruct (N.eqb (UserLists.id y) lid); [exact Hfk | apply Hl; exact Hy].
  - apply delete_list_item_ok in H. subst d'.
    split; [exact Hr|]. intros x Hx. simpl in Hx. apply filter_In in Hx.
    apply Hl. tauto.
Qed.

Lemma reachable_owners_exist (d : db) : reachable d -> owners_exist d.
Proof.
  apply reachable_ind_exec.
  - split; intros x [].
  - apply owners_exist_exec.
Qed.

Lemma in_filter_other {A : Type} (key : A -> uuid) (u : uuid) (l : list A) (x : A) :
  In x (filter (fun y => negb (N.eqb (key y) u)) l) <-> In x l /\ key x <> u.
Proof.
  rewrite filter_In, negb_true_iff, N.eqb_neq. tauto.
Qed.

(** ** Deleting an identity *)

(** C6: deleting identity [u] is one statement, and in the state it leaves
    the identity is gone together with its profile, its reviews and its list
    items: a signed-in caller who reads any of them gets [NotFound].  Each
    table keeps exactly the rows of the other identities.  Before and after,
    as in every reachable state, no review or list item is without its
    identity, and afterwards profiles and identities still go together. *)
Theorem identity_deletion_cascades (d : db) (u : uuid) :
  reachable d ->
  run (DeleteIdentity u) d = delete_identity u d /\
  references_auth_users u (delete_identity u d) = false /\
  (forall v, read_profile (Authenticated v) u (delete_identity u d) = Err NotFound) /\
  (forall v r, In r (reviews d) -> Reviews.user_id r = u ->
     read_review (Authenticated v) (Reviews.id r) (delete_identity u d)
     = Err NotFound) /\
  (forall v l, In l (user_lists d) -> UserLists.user_id l = u ->
     read_list_item (Authenticated v) (UserLists.id l) (delete_identity u d)
     = Err NotFound) /\
  (forall a, In a (auth_users (delete_identity u d))
             <-> In a (auth_users d) /\ AuthUsers.id a <> u) /\
  (forall p, In p (profiles (delete_identity u d))
             <-> In p (profiles d) /\ Profiles.id p <> u) /\
  (forall r, In r (reviews (delete_identity u d))
             <-> In r (reviews d) /\ Reviews.user_id r <> u) /\
  (forall l, In l (user_lists (delete_identity u d))
             <-> In l (user_lists d) /\ UserLists.user_id l <> u) /\
  owners_exist d /\ owners_exist (delete_identity u d) /\
  profiles_match_identities (delete_identity u d).
Proof.
  intros Hreach.
  destruct (reachable_primary_keys_unique d Hreach) as [Hnr Hnl].
  split; [reflexivity|].
  split.
  { unfold references_auth_users. simpl.
    rewrite (existsb_key_removed AuthUsers.id), N.eqb_refl. reflexivity. }
  split.
  { intros v. unfold read_profile, find_profile. simpl.
    rewrite (find_filtered_out Profiles.id). reflexivity. }
  split.
  { intros v r Hin Ho. unfold read_review, find_review. simpl.
    rewrite (find_dropped_row Reviews.id); auto.
    rewrite Ho, N.eqb_refl. reflexivity. }
  split.
  { intros v l Hin Ho. unfold read_list_item, find_list_item. simpl.
    rewrite (find_dropped_row UserLists.id); auto.
    rewrite Ho, N.eqb_refl. reflexivity. }
  split; [intros a; apply (in_filter_other AuthUsers.id)|].
  split; [intros p; apply (in_filter_other Profiles.id)|].
  split; [intros r; apply (in_filter_other Reviews.user_id)|].
  split; [intros l; apply (in_filter_other UserLists.user_id)|].
  split; [apply reachable_owners_exist; exact Hreach|].
  split.
  - apply reachable_owners_exist.
    apply (reachable_run (DeleteIdentity u) d Hreach).
  - apply reachable_profiles_match.
    apply (reachable_run (DeleteIdentity u) d Hreach).
Qed.

Lemma identity_deletion_cascades_witness :
  read_profile (Authenticated Scenario.B) Scenario.A
    (delete_identity Scenario.A Scenario.state) = Err NotFound /\
  read_review (Authenticated Scenario.B) 10%N
    (delete_identity Scenario.A Scenario.state) = Err NotFound /\
  read_list_item (Authenticated Scenario.A) 20%N
    (delete_identity Scenario.A Scenario.state) = Err NotFound /\
  (forall p, In p (profiles (delete_identity Scenario.A Scenario.state))
             <-> In p (profiles Scenario.state) /\ Profiles.id p <> Scenario.A).
Proof.
  destruct (identity_deletion_cascades Scenario.state Scenario.A)
    as [_ [_ [Hp [Hr [Hl [_ [Hkeep _]]]]]]].
  - apply reachable_run_all. apply reachable_empty.
  - split; [apply Hp|]. split; [|split; [|exact Hkeep]].
    + apply (Hr Scenario.B Scenario.review8); [simpl; auto | reflexivity].
    + apply (Hl Scenario.A Scenario.watch); [simpl; auto | reflexivity].
Defined.

(** * The rest of the script *)

(** ** Invariant: the unique constraints *)

Section ConflictFree.
Context {A : Type} (key : A -> uuid) (conflict : A -> A -> bool).
Hypothesis conflict_sym : forall x y, conflict x y = conflict y x.
Hypothesis conflict_key : forall x y, key y = key x -> conflict x y = true.

Lemma conflict_free_snoc (r : A) (l : list A) :
  conflict_free conflict l = true ->
  existsb (conflict r) l = false ->
  conflict_free conflict (l ++ [r]) = true.
Proof.
  intros Hcf Hfree. rewrite existsb_false_forall in Hfree.
  induction l as [|a l IH]; simpl; [reflexivity|].
  simpl in Hcf. apply andb_true_iff in Hcf. destruct Hcf as [Ha Hcf].
  apply negb_true_iff in Ha. apply andb_true_iff. split.
  - apply negb_true_iff. rewrite existsb_app, Ha. simpl.
    rewrite conflict_sym, (Hfree a (or_introl eq_refl)). reflexivity.
  - apply IH; [exact Hcf|]. intros x Hx. apply Hfree. right. exact Hx.
Qed.

Lemma conflict_free_filter (f : A -> bool) (l : list A) :
  conflict_free conflict l = true -> conflict_free conflict (filter f l) = true.
Proof.
  induction l as [|a l IH]; simpl; intros Hcf; [reflexivity|].
  apply andb_true_iff in Hcf. destruct Hcf as [Ha Hcf].
  destruct (f a); simpl; [|auto].
  apply andb_true_iff. split; [|auto].
  apply negb_true_iff in Ha. apply negb_true_iff.
  rewrite existsb_false_forall in *. intros x Hx.
  apply filter_In in Hx. apply Ha. tauto.
Qed.

Lemma conflict_free_replace (k : uuid) (r : A) (l : list A) :
  conflict_free conflict l = true ->
  existsb (conflict r) (filter (fun x => negb (N.eqb (key x) k)) l) = false ->
  conflict_free conflict (map (fun x => if N.eqb (key x) k then r else x) l) = true.
Proof.
  intros Hcf Hfree. rewrite existsb_false_forall in Hfree.
  assert (Hother : forall x, In x l -> key x <> k -> conflict r x = false).
  { intros x Hx Hk. apply Hfree. apply filter_In. split; [exact Hx|].
    apply negb_true_iff. apply N.eqb_neq. exact Hk. }
  clear Hfree. induction l as [|a l IH]; simpl; [reflexivity|].
  simpl in Hcf. apply andb_true_iff in Hcf. destruct Hcf as [Ha Hcf].
  apply negb_true_iff in Ha. rewrite existsb_false_forall in Ha.
  apply andb_true_iff. split.
  - apply negb_true_iff. apply existsb_false_forall. intros y Hy.
    apply in_map_iff in Hy. destruct Hy as [x [<- Hx]].
    assert (Hax : key x <> key a).
    { intros E. pose proof (Ha x Hx) as Hf.
      rewrite (conflict_key a x E) in Hf. discriminate. }
    destruct (N.eqb_spec (key a) k) as [Ea|Ea];
      destruct (N.eqb_spec (key x) k) as [Ex|Ex].
    + congruence.
    + apply Hother; [right; exact Hx | exact Ex].
    + rewrite conflict_sym. apply Hother; [left; reflexivity | exact Ea].
    + apply Ha. exact Hx.
  - apply IH; [exact Hcf|]. intros x Hx. apply Hother. right. exact Hx.
Qed.

Lemma conflict_free_inj (l : list A) (x y : A) :
  conflict_free conflict l = true ->
  In x l -> In y l -> conflict x y = true -> x = y.
Proof.
  induction l as [|a l IH]; simpl; intros Hcf Hx Hy Hc; [tauto|].
  apply andb_true_iff in Hcf. destruct Hcf as [Ha Hcf].
  apply negb_true_iff in Ha. rewrite existsb_false_forall in Ha.
  destruct Hx as [<- | Hx], Hy as [<- | Hy]; auto.
  - rewrite (Ha y Hy) in Hc. discriminate.
  - rewrite conflict_sym, (Ha x Hx) in Hc. discriminate.
Qed.
End ConflictFree.

Lemma same_username_sym (a b : option string) : same_username a b = same_username b a.
Proof. destruct a, b; simpl; auto. apply String.eqb_sym. Qed.

Lemma profiles_conflict_sym (x y : Profiles.row) :
  profiles_conflict x y = profiles_conflict y x.
Proof.
  unfold profiles_conflict. rewrite N.eqb_sym, same_username_sym. reflexivity.
Qed.

Lemma reviews_conflict_sym (x y : Reviews.row) :
  reviews_conflict x y = reviews_conflict y x.
Proof.
  unfold reviews_conflict, reviews_same_key.
  rewrite (N.eqb_sym (Reviews.id y)), (N.eqb_sym (Reviews.user_id y)),
    (String.eqb_sym (Reviews.media_type y)), (String.eqb_sym (Reviews.media_id y)).
  reflexivity.
Qed.

Lemma user_lists_conflict_sym (x y : UserLists.row) :
  user_lists_conflict x y = user_lists_conflict y x.
Proof.
  unfold user_lists_conflict, user_lists_same_key.
  rewrite (N.eqb_sym (UserLists.id y)), (N.eqb_sym (UserLists.user_id y)),
    (String.eqb_sym (UserLists.list_type y)), (String.eqb_sym (UserLists.media_type y)),
    (String.eqb_sym (UserLists.media_id y)).
  reflexivity.
Qed.

Lemma profiles_conflict_key (x y : Profiles.row) :
  Profiles.id y = Profiles.id x -> profiles_conflict x y = true.
Proof. unfold profiles_conflict. intros ->. rewrite N.eqb_refl. reflexivity. Qed.

Lemma reviews_conflict_key (x y : Reviews.row) :
  Reviews.id y = Reviews.id x -> reviews_conflict x y = true.
Proof. unfold reviews_conflict. intros ->. rewrite N.eqb_refl. reflexivity. Qed.

Lemma user_lists_conflict_key (x y : UserLists.row) :
  UserLists.id y = UserLists.id x -> user_lists_conflict x y = true.
Proof. unfold user_lists_conflict. intros ->. rewrite N.eqb_refl. reflexivity. Qed.

Lemma unique_keys_exec (s : stmt) (d d' : db) :
  exec s d = Ok d' -> unique_keys d -> unique_keys d'.
Proof.
  unfold unique_keys.
  destruct s; simpl; intros H [Hp [Hr Hl]].
  - apply create_identity_ok in H. destruct H as [_ [Hc ->]]. simpl.
    split; [|auto]. apply conflict_free_snoc; auto using profiles_conflict_sym.
  - injection H as <-. simpl.
    split; [|split]; apply conflict_free_filter; assumption.
  - apply insert_profile_ok in H. destruct H as [_ H].
    apply store_profile_ok in H. destruct H as [Hc [_ ->]]. simpl.
    split; [|auto]. apply conflict_free_snoc; auto using profiles_conflict_sym.
  - apply update_profile_ok in H. destruct H as [_ [_ [_ [Hc ->]]]]. simpl.
    split; [|auto].
    apply (conflict_free_replace Profiles.id);
      auto using profiles_conflict_sym, profiles_conflict_key.
  - destruct (delete_profile_fails c pid d) as [e He]. congruence.
  - apply insert_review_ok in H. destruct H as [_ [_ [Hc [_ ->]]]]. simpl.
    split; [auto|split; [|auto]].
    apply conflict_free_snoc; auto using reviews_conflict_sym.
  - apply update_review_ok in H. destruct H as [_ [_ [_ [Hc [_ ->]]]]]. simpl.
    split; [auto|split; [|auto]].
    apply (conflict_free_replace Reviews.id);
      auto using reviews_conflict_sym, reviews_conflict_key.
  - apply delete_review_ok in H. destruct H as [_ ->]. simpl.
    split; [auto|split; [|auto]]. apply conflict_free_filter. assumption.
  - apply insert_list_item_ok in H. destruct H as [_ [_ [Hc [_ ->]]]]. simpl.
    split; [auto|split; [auto|]].
    apply conflict_free_snoc; auto using user_lists_conflict_sym.
  - apply update_list_item_ok in H. destruct H as [_ [_ [_ [Hc [_ ->]]]]]. simpl.
    split; [auto|split; [auto|]].
    apply (conflict_free_replace UserLists.id);
      auto using user_lists_conflict_sym, user_lists_conflict_key.
  - apply delete_list_item_ok in H. subst d'. simpl.
    split; [auto|split; [auto|]]. apply conflict_free_filter. assumption.
Qed.

Lemma reachable_unique_keys (d : db) : reachable d -> unique_keys d.
Proof.
  apply reachable_ind_exec.
  - repeat split.
  - apply unique_keys_exec.
Qed.

(** X1: in every reachable state the unique constraints hold: two stored
    reviews with the same (user_id, media_type, media_id), two stored list
    items with the same (user_id, list_type, media_type, media_id), two
    stored profiles with the same non-null username, or two rows of one
    table with the same id, are one and the same row. *)
Theorem stored_keys_are_unique (d : db) :
  reachable d ->
  (forall x y, In x (reviews d) -> In y (reviews d) ->
     Reviews.id x = Reviews.id y \/
     (Reviews.user_id x = Reviews.user_id y /\
      Reviews.media_type x = Reviews.media_type y /\
      Reviews.media_id x = Reviews.media_id y) ->
     x = y) /\
  (forall x y, In x (user_lists d) -> In y (user_lists d) ->
     UserLists.id x = UserLists.id y \/
     (UserLists.user_id x = UserLists.user_id y /\
      UserLists.list_type x = UserLists.list_type y /\
      UserLists.media_type x = UserLists.media_type y /\
      UserLists.media_id x = UserLists.media_id y) ->
     x = y) /\
  (forall x y, In x (profiles d) -> In y (profiles d) ->
     Profiles.id x = Profiles.id y \/
     (exists s, Profiles.username x = Some s /\ Profiles.username y = Some s) ->
     x = y).
Proof.
  intros Hr. destruct (reachable_unique_keys d Hr) as [Hp [Hrv Hl]].
  split; [|split].
  - intros x y Hx Hy Hk.
    apply (conflict_free_inj reviews_conflict reviews_conflict_sym (reviews d));
      auto.
    unfold reviews_conflict, reviews_same_key.
    destruct Hk as [E | [E1 [E2 E3]]].
    + rewrite E, N.eqb_refl. reflexivity.
    + rewrite E1, E2, E3, N.eqb_refl, !String.eqb_refl. apply orb_true_r.
  - intros x y Hx Hy Hk.
    apply (conflict_free_inj user_lists_conflict user_lists_conflict_sym
             (user_lists d)); auto.
    unfold user_lists_conflict, user_lists_same_key.
    destruct Hk as [E | [E1 [E2 [E3 E4]]]].
    + rewrite E, N.eqb_refl. reflexivity.
    + rewrite E1, E2, E3, E4, N.eqb_refl, !String.eqb_refl. apply orb_true_r.
  - intros x y Hx Hy Hk.
    apply (conflict_free_inj profiles_conflict profiles_conflict_sym (profiles d));
      auto.
    unfold profiles_conflict.
    destruct Hk as [E | [s [E1 E2]]].
    + rewrite E, N.eqb_refl. reflexivity.
    + rewrite E1, E2. simpl. rewrite String.eqb_refl. apply orb_true_r.
Qed.

Lemma stored_keys_are_unique_witness :
  Scenario.review8 = nth 0 (reviews Scenario.state) Scenario.review5.
Proof.
  apply (proj1 (stored_keys_are_unique Scenario.state
                  (reachable_run_all Scenario.history empty_db reachable_empty))).
  - simpl. auto.
  - simpl. auto.
  - right. repeat split; reflexivity.
Defined.

(** ** The CHECK constraints of [user_lists] *)

Lemma user_lists_checked_exec (s : stmt) (d d' : db) :
  exec s d = Ok d' -> user_lists_checked d -> user_lists_checked d'.
Proof.
  destruct s; simpl; intros H Inv.
  - apply create_identity_ok in H. destruct H as [_ [_ ->]]. exact Inv.
  - injection H as <-. intros x Hx. simpl in Hx.
    apply filter_In in Hx. apply Inv. tauto.
  - apply insert_profile_ok in H. destruct H as [_ H].
    apply store_profile_ok in H. destruct H as [_ [_ ->]]. exact Inv.
  - apply update_profile_ok in H. destruct H as [_ [_ [_ [_ ->]]]]. exact Inv.
  - destruct (delete_profile_fails c pid d) as [e He]. congruence.
  - apply insert_review_ok in H. destruct H as [_ [_ [_ [_ ->]]]]. exact Inv.
  - apply update_review_ok in H. destruct H as [_ [_ [_ [_ [_ ->]]]]]. exact Inv.
  - apply delete_review_ok in H. destruct H as [_ ->]. exact Inv.
  - apply insert_list_item_ok in H. destruct H as [_ [Hc [_ [_ ->]]]].
    intros x Hx. simpl in Hx. apply in_app_or in Hx.
    destruct Hx as [Hx | [<- | []]]; [apply Inv; exact Hx | exact Hc].
  - apply update_list_item_ok in H. destruct H as [_ [Hc [_ [_ [_ ->]]]]].
    intros x Hx. simpl in Hx. apply in_map_iff in Hx. destruct Hx as [y [<- Hy]].
    destruct (N.eqb (UserLists.id y) lid); [exact Hc | apply Inv; exact Hy].
  - apply delete_list_item_ok in H. subst d'.
    intros x Hx. simpl in Hx. apply filter_In in Hx. apply Inv. tauto.
Qed.

Lemma reachable_user_lists_checked (d : db) : reachable d -> user_lists_checked d.
Proof.
  apply reachable_ind_exec.
  - intros x [].
  - apply user_lists_checked_exec.
Qed.

Lemma list_type_check_enum (s : string) :
  list_type_check s = true <->
  s = "watchlist" \/ s = "favorites" \/ s = "reading_list" \/ s = "completed".
Proof.
  unfold list_type_check. simpl. rewrite !orb_true_iff, !String.eqb_eq.
  split; [intros [H | [H | [H | [H | H]]]] | intros [H | [H | [H | H]]]];
    auto; discriminate.
Qed.

(** X2: the signed-in owner's insert of a list item whose list type is not
    one of watchlist, favorites, reading_list, completed, or whose media
    type is not one of movie, book, show, fails with [CheckViolation]; no
    caller commits such a row by insert or by update; and in every reachable
    state every stored list item has a listed list type and media type. *)
Theorem list_item_checks_enforced :
  (forall (d : db) (u : uuid) (l : UserLists.row),
     UserLists.user_id l = u ->
     list_type_check (UserLists.list_type l) = false \/
     media_type_check (UserLists.media_type l) = false ->
     insert_list_item (Authenticated u) l d = Err CheckViolation) /\
  (forall (c : caller) (lid : uuid) (l : UserLists.row) (d d' : db),
     insert_list_item c l d = Ok d' \/ update_list_item c lid l d = Ok d' ->
     user_lists_check l = true) /\
  (forall d : db,
     reachable d ->
     forall l, In l (user_lists d) ->
       (UserLists.list_type l = "watchlist" \/ UserLists.list_type l = "favorites" \/
        UserLists.list_type l = "reading_list" \/ UserLists.list_type l = "completed") /\
       (UserLists.media_type l = "movie" \/ UserLists.media_type l = "book" \/
        UserLists.media_type l = "show")).
Proof.
  split; [|split].
  - intros d u l Hu Hbad.
    assert (Hc : user_lists_check l = false).
    { unfold user_lists_check. destruct Hbad as [H | H]; rewrite H;
        [reflexivity | apply andb_false_r]. }
    unfold insert_list_item. rewrite rls_with_check_spec by auto.
    rewrite is_owner_authenticated, Hu, N.eqb_refl, Hc. reflexivity.
  - intros c lid l d d' [H | H].
    + apply insert_list_item_ok in H. tauto.
    + apply update_list_item_ok in H. tauto.
  - intros d Hr l Hin.
    pose proof (reachable_user_lists_checked d Hr) as Inv.
    specialize (Inv l Hin). unfold user_lists_check in Inv.
    apply andb_true_iff in Inv. destruct Inv as [Hlt Hmt].
    split; [apply list_type_check_enum | apply media_type_check_enum]; assumption.
Qed.

Lemma list_item_checks_enforced_witness :
  insert_list_item (Authenticated Scenario.A)
    (UserLists.mk 22%N Scenario.A "wishlist" "movie" "603" "The Matrix" None None)
    Scenario.state = Err CheckViolation /\
  (UserLists.list_type Scenario.fav = "watchlist" \/
   UserLists.list_type Scenario.fav = "favorites" \/
   UserLists.list_type Scenario.fav = "reading_list" \/
   UserLists.list_type Scenario.fav = "completed").
Proof.
  destruct list_item_checks_enforced as [Hbad [_ Hinv]].
  split.
  - apply Hbad; [reflexivity | left; reflexivity].
  - apply (Hinv Scenario.state).
    + apply reachable_run_all. apply reachable_empty.
    + simpl. auto.
Defined.

(** ** Ownership under the write policies *)

Lemma update_list_item_owner (c : caller) (lid : uuid) (r : UserLists.row) (d d' : db) :
  update_list_item c lid r d = Ok d' ->
  exists old, find_list_item lid d = Some old /\
              c = Authenticated (UserLists.user_id old) /\
              UserLists.user_id r = UserLists.user_id old.
Proof.
  unfold update_list_item. intros H. guards.
  destruct (find_list_item lid d) as [old|] eqn:Hf; [|discriminate].
  guards. rewrite rls_using_spec in H1. rewrite rls_with_check_spec in H2 by auto.
  apply is_owner_true in H1. apply is_owner_true in H2.
  exists old. repeat split; congruence.
Qed.

Lemma delete_list_item_owner (c : caller) (lid : uuid) (d d' : db) :
  delete_list_item c lid d = Ok d' ->
  exists old, find_list_item lid d = Some old /\
              c = Authenticated (UserLists.user_id old).
Proof.
  unfold delete_list_item. intros H. guards.
  destruct (find_list_item lid d) as [old|] eqn:Hf; [|discriminate].
  guards. rewrite rls_using_spec in H1. apply is_owner_true in H1. eauto.
Qed.

(** X3: a signed-in caller cannot create a row in another identity's name:
    a review or list item whose [user_id], or a profile whose [id], is not
    the caller's own is refused with [AuthorizationDenied], whatever else
    the row holds. *)
Theorem insert_for_another_identity_denied (d : db) (v : uuid) :
  (forall r, Reviews.user_id r <> v ->
     insert_review (Authenticated v) r d = Err AuthorizationDenied) /\
  (forall l, UserLists.user_id l <> v ->
     insert_list_item (Authenticated v) l d = Err AuthorizationDenied) /\
  (forall p, Profiles.id p <> v ->
     insert_profile (Authenticated v) p d = Err AuthorizationDenied).
Proof.
  split; [|split].
  - intros r Hne. unfold insert_review. rewrite rls_with_check_spec by auto.
    rewrite is_owner_authenticated.
    apply not_eq_sym in Hne. apply N.eqb_neq in Hne. rewrite Hne. reflexivity.
  - intros l Hne. unfold insert_list_item. rewrite rls_with_check_spec by auto.
    rewrite is_owner_authenticated.
    apply not_eq_sym in Hne. apply N.eqb_neq in Hne. rewrite Hne. reflexivity.
  - intros p Hne. unfold insert_profile. rewrite rls_with_check_spec by auto.
    rewrite is_owner_authenticated.
    apply not_eq_sym in Hne. apply N.eqb_neq in Hne. rewrite Hne. reflexivity.
Qed.

Lemma insert_for_another_identity_denied_witness :
  insert_review (Authenticated Scenario.B)
    (Reviews.mk 12%N Scenario.A "book" "OL1W" 9%Z None None None) Scenario.state
  = Err AuthorizationDenied.
Proof.
  apply (proj1 (insert_for_another_identity_denied Scenario.state Scenario.B)).
  discriminate.
Defined.

(** X4: an update never hands a row to another identity.  An update that
    commits was issued by the owner of the row it replaces and leaves
    [user_id] (for a profile, [id]) as it was; the owner's own attempt to
    set another [user_id] fails with [AuthorizationDenied], the UPDATE
    policy's USING being applied to the new row as well. *)
Theorem update_keeps_owner :
  (forall c rid r d d',
     update_review c rid r d = Ok d' ->
     exists old, find_review rid d = Some old /\
                 c = Authenticated (Reviews.user_id old) /\
                 Reviews.user_id r = Reviews.user_id old) /\
  (forall c lid l d d',
     update_list_item c lid l d = Ok d' ->
     exists old, find_list_item lid d = Some old /\
                 c = Authenticated (UserLists.user_id old) /\
                 UserLists.user_id l = UserLists.user_id old) /\
  (forall c pid p d d',
     update_profile c pid p d = Ok d' ->
     c = Authenticated pid /\ Profiles.id p = pid) /\
  (forall u rid old r d,
     find_review rid d = Some old -> Reviews.user_id old = u ->
     Reviews.user_id r <> u ->
     update_review (Authenticated u) rid r d = Err AuthorizationDenied) /\
  (forall u lid old l d,
     find_list_item lid d = Some old -> UserLists.user_id old = u ->
     UserLists.user_id l <> u ->
     update_list_item (Authenticated u) lid l d = Err AuthorizationDenied).
Proof.
  split; [|split; [|split; [|split]]].
  - intros c rid r d d' H. apply update_review_ok in H.
    destruct H as [Hc [_ [[old [Hf Ho]] _]]].
    exists old. repeat split; congruence.
  - intros c lid l d d' H. eapply update_list_item_owner; eauto.
  - intros c pid p d d' H. apply update_profile_ok in H. tauto.
  - intros u rid old r d Hf Ho Hne. unfold update_review.
    rewrite Hf, rls_using_spec, rls_with_check_spec by auto.
    rewrite !is_owner_authenticated, Ho, N.eqb_refl.
    apply not_eq_sym in Hne. apply N.eqb_neq in Hne. rewrite Hne. reflexivity.
  - intros u lid old l d Hf Ho Hne. unfold update_list_item.
    rewrite Hf, rls_using_spec, rls_with_check_spec by auto.
    rewrite !is_owner_authenticated, Ho, N.eqb_refl.
    apply not_eq_sym in Hne. apply N.eqb_neq in Hne. rewrite Hne. reflexivity.
Qed.

Lemma update_keeps_owner_witness :
  update_review (Authenticated Scenario.A) 10%N
    (Reviews.mk 10%N Scenario.B "movie" "27205" 8%Z None None None) Scenario.state
  = Err AuthorizationDenied.
Proof.
  apply (proj1 (proj2 (proj2 (proj2 update_keeps_owner)))
           Scenario.A 10%N Scenario.review8).
  - reflexivity.
  - reflexivity.
  - discriminate.
Defined.

(** X5: an update or a delete that identity [u2] aims at a list item of
    another identity [u1] touches no row, with the outcome of a statement on
    a missing id and no authorization error, and leaves the database as it
    was. *)
Theorem foreign_list_item_write_has_no_effect
    (d : db) (u1 u2 lid : uuid) (l new : UserLists.row) :
  u1 <> u2 ->
  find_list_item lid d = Some l ->
  UserLists.user_id l = u1 ->
  update_list_item (Authenticated u2) lid new d = Err NotFound /\
  delete_list_item (Authenticated u2) lid d = Err NotFound /\
  run (UpdateListItem (Authenticated u2) lid new) d = d /\
  run (DeleteListItem (Authenticated u2) lid) d = d.
Proof.
  intros Hne Hf Ho.
  assert (Hden : N.eqb u2 (UserLists.user_id l) = false)
    by (apply N.eqb_neq; congruence).
  assert (Hu : update_list_item (Authenticated u2) lid new d = Err NotFound).
  { unfold update_list_item. rewrite Hf, rls_using_spec, is_owner_authenticated.
    simpl. rewrite Hden. reflexivity. }
  assert (Hd : delete_list_item (Authenticated u2) lid d = Err NotFound).
  { unfold delete_list_item. rewrite Hf, rls_using_spec, is_owner_authenticated.
    simpl. rewrite Hden. reflexivity. }
  unfold run; simpl. rewrite Hu, Hd. simpl. repeat split; auto.
Qed.

Lemma foreign_list_item_write_has_no_effect_witness :
  delete_list_item (Authenticated Scenario.B) 20%N Scenario.state = Err NotFound /\
  run (DeleteListItem (Authenticated Scenario.B) 20%N) Scenario.state = Scenario.state.
Proof.
  destruct (foreign_list_item_write_has_no_effect Scenario.state Scenario.A
              Scenario.B 20%N Scenario.watch Scenario.fav) as [_ [Hd [_ Hr]]].
  - discriminate.
  - reflexivity.
  - reflexivity.
  - auto.
Defined.

(** X6: a caller with no identity can change nothing.  Its inserts are
    refused with [AuthorizationDenied], no new row passing a WITH CHECK
    without an [auth.uid()]; its updates and deletes find no row to act on;
    either way the database is as it was.  It reads every stored profile,
    the SELECT policy of [profiles] being [true], and sees no list item. *)
Theorem anonymous_caller_changes_nothing (s : stmt) (d : db) :
  stmt_caller s = Some Anon ->
  exec s d
  = Err (match s with
         | InsertProfile _ _ | InsertReview _ _ | InsertListItem _ _ =>
             AuthorizationDenied
         | _ => NotFound
         end) /\
  run s d = d /\
  (forall pid p, find_profile pid d = Some p -> read_profile Anon pid d = Ok p) /\
  select_user_lists Anon d = Ok [].
Proof.
  intros Hc.
  assert (E : exec s d
              = Err (match s with
                     | InsertProfile _ _ | InsertReview _ _ | InsertListItem _ _ =>
                         AuthorizationDenied
                     | _ => NotFound
                     end)).
  { destruct s; simpl in Hc; try discriminate; injection Hc as ->; simpl;
      try reflexivity.
    - unfold update_profile. simpl. destruct (find_profile pid d); reflexivity.
    - unfold delete_profile. simpl. destruct (find_profile pid d); reflexivity.
    - unfold update_review. simpl. destruct (find_review rid d); reflexivity.
    - unfold delete_review. simpl. destruct (find_review rid d); reflexivity.
    - unfold update_list_item. simpl. destruct (find_list_item lid d); reflexivity.
    - unfold delete_list_item. simpl. destruct (find_list_item lid d); reflexivity. }
  split; [exact E|]. split; [unfold run; rewrite E; reflexivity|]. split.
  - intros pid p Hf. unfold read_profile. rewrite Hf. reflexivity.
  - unfold select_user_lists. simpl. f_equal.
    induction (user_lists d) as [|a l IH]; simpl; [reflexivity | exact IH].
Qed.

Lemma anonymous_caller_changes_nothing_witness :
  exec (DeleteReview Anon 10%N) Scenario.state = Err NotFound /\
  run (DeleteReview Anon 10%N) Scenario.state = Scenario.state.
Proof.
  destruct (anonymous_caller_changes_nothing (DeleteReview Anon 10%N) Scenario.state)
    as [E [Hr _]].
  - reflexivity.
  - auto.
Defined.

(** ** Writing a row and reading it back *)

Section FindByKey.
Context {A : Type} (key : A -> uuid).

Lemma find_snoc_fresh (r : A) (l : list A) :
  existsb (fun x => N.eqb (key x) (key r)) l = false ->
  find (fun x => N.eqb (key x) (key r)) (l ++ [r]) = Some r.
Proof.
  induction l as [|a l IH]; simpl; intros H.
  - rewrite N.eqb_refl. reflexivity.
  - apply orb_false_iff in H. destruct H as [-> H]. auto.
Qed.

Lemma find_snoc_old (k : uuid) (r x : A) (l : list A) :
  find (fun y => N.eqb (key y) k) l = Some x ->
  find (fun y => N.eqb (key y) k) (l ++ [r]) = Some x.
Proof.
  induction l as [|a l IH]; simpl; [discriminate|].
  destruct (N.eqb (key a) k); auto.
Qed.

Lemma find_replaced (k : uuid) (r old : A) (l : list A) :
  find (fun x => N.eqb (key x) k) l = Some old ->
  existsb (fun x => N.eqb (key x) (key r))
    (filter (fun x => negb (N.eqb (key x) k)) l) = false ->
  find (fun x => N.eqb (key x) (key r))
    (map (fun x => if N.eqb (key x) k then r else x) l) = Some r.
Proof.
  induction l as [|a l IH]; simpl; [discriminate|].
  destruct (N.eqb (key a) k) eqn:E; simpl.
  - intros _ _. rewrite N.eqb_refl. reflexivity.
  - intros Hf Hfree. apply orb_false_iff in Hfree. destruct Hfree as [-> Hfree].
    auto.
Qed.

Lemma find_other_after_remove (k k' : uuid) (l : list A) :
  k' <> k ->
  find (fun x => N.eqb (key x) k') (filter (fun x => negb (N.eqb (key x) k)) l)
  = find (fun x => N.eqb (key x) k') l.
Proof.
  intros Hne. induction l as [|a l IH]; simpl; [reflexivity|].
  destruct (N.eqb_spec (key a) k) as [E|E]; simpl.
  - destruct (N.eqb_spec (key a) k'); [congruence | exact IH].
  - destruct (N.eqb (key a) k'); [reflexivity | exact IH].
Qed.
End FindByKey.

(** X7: what the owner writes to [reviews] is what everyone signed in reads
    back.  After an insert commits, a read of the new row's id returns that
    row and every row stored before is still found under its id; after an
    update commits, a read of the new row's id returns the new row; after a
    delete commits, a read of the id gives [NotFound] while the rows under
    other ids are found as before. *)
Theorem review_write_then_read (v : uuid) :
  (forall c r d d',
     insert_review c r d = Ok d' ->
     read_review (Authenticated v) (Reviews.id r) d' = Ok r /\
     forall rid x, find_review rid d = Some x ->
                   read_review (Authenticated v) rid d' = Ok x) /\
  (forall c rid r d d',
     update_review c rid r d = Ok d' ->
     read_review (Authenticated v) (Reviews.id r) d' = Ok r) /\
  (forall c rid d d',
     delete_review c rid d = Ok d' ->
     read_review (Authenticated v) rid d' = Err NotFound /\
     forall rid', rid' <> rid ->
       read_review (Authenticated v) rid' d' = read_review (Authenticated v) rid' d).
Proof.
  split; [|split].
  - intros c r d d' H. apply insert_review_ok in H.
    destruct H as [_ [_ [Hfree [_ ->]]]]. apply reviews_conflict_id in Hfree.
    split.
    + unfold read_review, find_review. simpl.
      rewrite (find_snoc_fresh Reviews.id r _ Hfree). reflexivity.
    + intros rid x Hx. unfold read_review, find_review in *. simpl.
      rewrite (find_snoc_old Reviews.id rid r x _ Hx). reflexivity.
  - intros c rid r d d' H. apply update_review_ok in H.
    destruct H as [_ [_ [[old [Hf _]] [Hfree [_ ->]]]]].
    apply reviews_conflict_id in Hfree.
    unfold read_review, find_review in *. simpl.
    rewrite (find_replaced Reviews.id rid r old _ Hf Hfree). reflexivity.
  - intros c rid d d' H. apply delete_review_ok in H. destruct H as [_ ->].
    split.
    + unfold read_review, find_review. simpl.
      rewrite (find_filtered_out Reviews.id). reflexivity.
    + intros rid' Hne. unfold read_review, find_review. simpl.
      rewrite (find_other_after_remove Reviews.id rid rid' _ Hne). reflexivity.
Qed.

Lemma review_write_then_read_witness :
  read_review (Authenticated Scenario.B) 10%N Scenario.state = Ok Scenario.review8.
Proof.
  apply (proj1 (proj1 (review_write_then_read Scenario.B)
                  (Authenticated Scenario.A) Scenario.review8
                  (run_all Scenario.signups empty_db)
                  (run_all (Scenario.signups ++
                              [InsertReview (Authenticated Scenario.A) Scenario.review8])
                     empty_db)
                  eq_refl)).
Defined.

(** X8: what the owner writes to [user_lists] is what the owner, and only
    the owner, reads back.  After an insert commits, the owner's read of the
    new row's id returns that row, the row is among what the owner's SELECT
    returns, and the read of any other identity ends without a row, as for
    an id that does not exist; after an update commits, the owner's read of
    the new row's id returns the new row; after a delete commits, the
    owner's read of the id gives [NotFound]. *)
Theorem list_item_write_then_read :
  (forall c l d d',
     insert_list_item c l d = Ok d' ->
     c = Authenticated (UserLists.user_id l) /\
     read_list_item c (UserLists.id l) d' = Ok l /\
     (exists rows, select_user_lists c d' = Ok rows /\ In l rows) /\
     forall v, v <> UserLists.user_id l ->
       read_list_item (Authenticated v) (UserLists.id l) d' = Err NotFound) /\
  (forall c lid l d d',
     update_list_item c lid l d = Ok d' ->
     read_list_item c (UserLists.id l) d' = Ok l) /\
  (forall c lid d d',
     delete_list_item c lid d = Ok d' ->
     read_list_item c lid d' = Err NotFound).
Proof.
  split; [|split].
  - intros c l d d' H. apply insert_list_item_ok in H.
    destruct H as [-> [_ [Hfree [_ ->]]]]. apply user_lists_conflict_id in Hfree.
    assert (Hfind : find_list_item (UserLists.id l)
                      (set_user_lists d (user_lists d ++ [l])) = Some l)
      by (unfold find_list_item; simpl; apply (find_snoc_fresh UserLists.id); exact Hfree).
    split; [reflexivity|]. split; [|split].
    + unfold read_list_item. rewrite Hfind, rls_using_spec, is_owner_authenticated.
      simpl. rewrite N.eqb_refl. reflexivity.
    + eexists. split; [reflexivity|]. apply filter_In. split.
      * simpl. apply in_or_app. right. left. reflexivity.
      * rewrite rls_using_spec, is_owner_authenticated. apply N.eqb_refl.
    + intros v Hne. unfold read_list_item.
      rewrite Hfind, rls_using_spec, is_owner_authenticated. simpl.
      apply N.eqb_neq in Hne. rewrite Hne. reflexivity.
  - intros c lid l d d' H.
    destruct (update_list_item_owner c lid l d d' H) as [old [Hf [-> Ho]]].
    apply update_list_item_ok in H. destruct H as [_ [_ [_ [Hfree [_ ->]]]]].
    apply user_lists_conflict_id in Hfree.
    unfold read_list_item, find_list_item in *. simpl.
    rewrite (find_replaced UserLists.id lid l old _ Hf Hfree).
    rewrite rls_using_spec, is_owner_authenticated, Ho, N.eqb_refl. reflexivity.
  - intros c lid d d' H.
    destruct (delete_list_item_owner c lid d d' H) as [old [_ ->]].
    apply delete_list_item_ok in H. subst d'.
    unfold read_list_item, find_list_item. simpl.
    rewrite (find_filtered_out UserLists.id). reflexivity.
Qed.

Lemma list_item_write_then_read_witness :
  read_list_item (Authenticated Scenario.A) 20%N
    (run_all (Scenario.signups ++ [InsertListItem (Authenticated Scenario.A) Scenario.watch])
       empty_db) = Ok Scenario.watch.
Proof.
  apply (proj1 list_item_write_then_read
           (Authenticated Scenario.A) Scenario.watch
           (run_all Scenario.signups empty_db)
           (run_all (Scenario.signups ++
                       [InsertListItem (Authenticated Scenario.A) Scenario.watch])
              empty_db)
           eq_refl).
Defined.

(** ** Foreign keys and identity deletion *)

Lemma no_identity_after_deletion (u : uuid) (d : db) :
  references_auth_users u (delete_identity u d) = false.
Proof.
  unfold references_auth_users. simpl.
  rewrite (existsb_key_removed AuthUsers.id), N.eqb_refl. reflexivity.
Qed.

(** X9: a signed-in caller whose identity is not in [auth.users] cannot
    store anything: its well-formed review or list item with a free id and
    key fails with [ForeignKeyViolation].  This is the case of a caller whose
    identity has just been deleted: its insert of a well-formed review under
    an unused id fails that way. *)
Theorem missing_identity_foreign_key :
  (forall d u r,
     Reviews.user_id r = u -> reviews_check r = true ->
     existsb (reviews_conflict r) (reviews d) = false ->
     references_auth_users u d = false ->
     insert_review (Authenticated u) r d = Err ForeignKeyViolation) /\
  (forall d u l,
     UserLists.user_id l = u -> user_lists_check l = true ->
     existsb (user_lists_conflict l) (user_lists d) = false ->
     references_auth_users u d = false ->
     insert_list_item (Authenticated u) l d = Err ForeignKeyViolation) /\
  (forall d u r,
     Reviews.user_id r = u -> reviews_check r = true ->
     existsb (fun x => N.eqb (Reviews.id x) (Reviews.id r)) (reviews d) = false ->
     insert_review (Authenticated u) r (delete_identity u d)
     = Err ForeignKeyViolation).
Proof.
  assert (H1 : forall d u r,
     Reviews.user_id r = u -> reviews_check r = true ->
     existsb (reviews_conflict r) (reviews d) = false ->
     references_auth_users u d = false ->
     insert_review (Authenticated u) r d = Err ForeignKeyViolation).
  { intros d u r Hu Hc Hfree Hfk. unfold insert_review.
    rewrite rls_with_check_spec by auto.
    rewrite is_owner_authenticated, Hu, N.eqb_refl, Hc, Hfree, Hfk. reflexivity. }
  split; [exact H1|]. split.
  - intros d u l Hu Hc Hfree Hfk. unfold insert_list_item.
    rewrite rls_with_check_spec by auto.
    rewrite is_owner_authenticated, Hu, N.eqb_refl, Hc, Hfree, Hfk. reflexivity.
  - intros d u r Hu Hc Hid. apply H1; auto.
    + rewrite existsb_false_forall in *. intros x Hx. simpl in Hx.
      apply filter_In in Hx. destruct Hx as [Hx Hne].
      unfold reviews_conflict, reviews_same_key. rewrite (Hid x Hx), Hu. simpl.
      apply negb_true_iff in Hne. rewrite Hne. reflexivity.
    + apply no_identity_after_deletion.
Qed.

Lemma missing_identity_foreign_key_witness :
  insert_review (Authenticated Scenario.A) Scenario.review5
    (delete_identity Scenario.A Scenario.state) = Err ForeignKeyViolation.
Proof.
  apply (proj2 (proj2 missing_identity_foreign_key)); reflexivity.
Defined.

Lemma filter_twice {A : Type} (f : A -> bool) (l : list A) :
  filter f (filter f l) = filter f l.
Proof.
  induction l as [|a l IH]; simpl; [reflexivity|].
  destruct (f a) eqn:E; simpl; [rewrite E, IH; reflexivity | exact IH].
Qed.

Lemma filter_swap {A : Type} (f g : A -> bool) (l : list A) :
  filter f (filter g l) = filter g (filter f l).
Proof.
  induction l as [|a l IH]; simpl; [reflexivity|].
  destruct (f a) eqn:Ef, (g a) eqn:Eg; simpl; rewrite ?Ef, ?Eg, IH; reflexivity.
Qed.

Lemma profile_has_identity (d : db) (p : Profiles.row) :
  profiles_match_identities d -> In p (profiles d) ->
  references_auth_users (Profiles.id p) d = true.
Proof.
  intros Inv Hin. specialize (Inv (Profiles.id p)).
  destruct (references_auth_users (Profiles.id p) d); [reflexivity|].
  apply existsb_of_filter_none in Inv. rewrite existsb_false_forall in Inv.
  specialize (Inv p Hin). rewrite N.eqb_refl in Inv. discriminate.
Qed.

(** X10: deleting identities.  In a reachable state, deleting an id that is
    no identity changes nothing at all; deleting the same identity twice is
    deleting it once; and two deletions can be done in either order. *)
Theorem delete_identity_algebra :
  (forall d u, reachable d -> references_auth_users u d = false ->
     delete_identity u d = d) /\
  (forall d u, delete_identity u (delete_identity u d) = delete_identity u d) /\
  (forall d u v,
     delete_identity u (delete_identity v d) = delete_identity v (delete_identity u d)).
Proof.
  split; [|split].
  - intros d u Hr Hfresh.
    pose proof (reachable_profiles_match d Hr) as Hpm.
    destruct (reachable_owners_exist d Hr) as [Hrv Hl].
    assert (Hother : forall w, references_auth_users w d = true ->
                       negb (N.eqb w u) = true).
    { intros w Hw. apply negb_true_iff. apply N.eqb_neq. congruence. }
    destruct d as [au pr rv ul]. unfold delete_identity. simpl in *. f_equal.
    + apply all_rows_pass. intros a Ha. apply Hother.
      apply (identity_is_referenced a (mkdb au pr rv ul)). exact Ha.
    + apply all_rows_pass. intros p Hp. apply Hother.
      apply (profile_has_identity (mkdb au pr rv ul)); assumption.
    + apply all_rows_pass. intros r Hin. apply Hother. apply Hrv. exact Hin.
    + apply all_rows_pass. intros l Hin. apply Hother. apply Hl. exact Hin.
  - intros d u. unfold delete_identity. simpl. rewrite !filter_twice. reflexivity.
  - intros d u v. unfold delete_identity. simpl. f_equal; apply filter_swap.
Qed.

Lemma delete_identity_algebra_witness :
  delete_identity 7%N Scenario.state = Scenario.state.
Proof.
  apply (proj1 delete_identity_algebra).
  - apply reachable_run_all. apply reachable_empty.
  - reflexivity.
Defined.

(** X11: deleting an identity frees its username.  In a reachable state
    where identity [u]'s profile carries username [s], a new identity whose
    derived username is [s] is turned away while [u] exists, and signs up
    without error once [u] has been deleted. *)
Theorem username_freed_by_deletion
    (d : db) (u : uuid) (p : Profiles.row) (s : string)
    (NEW : AuthUsers.row) (now : timestamptz) :
  reachable d ->
  In p (profiles d) -> Profiles.id p = u -> Profiles.username p = Some s ->
  derived_username NEW = Some s ->
  references_auth_users (AuthUsers.id NEW) d = false ->
  create_identity NEW now d = Err UniqueViolation /\
  create_identity NEW now (delete_identity u d)
  = Ok (mkdb (auth_users (delete_identity u d) ++ [NEW])
          (profiles (delete_identity u d) ++
             [Profiles.mk (AuthUsers.id NEW) (Some s) None (Some now) (Some now)])
          (reviews (delete_identity u d)) (user_lists (delete_identity u d))).
Proof.
  intros Hr Hin Hid Hp Hs Hfresh.
  pose proof (reachable_profiles_match d Hr) as Hpm.
  destruct (reachable_unique_keys d Hr) as [Hcf _].
  split.
  - unfold create_identity, insert_auth_user. rewrite Hfresh. simpl.
    unfold handle_new_user, store_profile. simpl.
    rewrite (username_conflict
               (Profiles.mk (AuthUsers.id NEW) (derived_username NEW) None
                  (Some now) (Some now)) p s (profiles d) Hin Hp Hs).
    reflexivity.
  - assert (Hfresh' : references_auth_users (AuthUsers.id NEW) (delete_identity u d)
                      = false).
    { unfold references_auth_users in *. simpl.
      rewrite (existsb_key_removed AuthUsers.id), Hfresh.
      destruct (N.eqb (AuthUsers.id NEW) u); reflexivity. }
    unfold create_identity, insert_auth_user. rewrite Hfresh'. simpl.
    unfold handle_new_user, store_profile. rewrite Hs. simpl.
    assert (Hc : existsb
                   (profiles_conflict
                      (Profiles.mk (AuthUsers.id NEW) (Some s) None (Some now) (Some now)))
                   (filter (fun x => negb (N.eqb (Profiles.id x) u)) (profiles d))
                 = false).
    { apply existsb_false_forall. intros x Hx. apply filter_In in Hx.
      destruct Hx as [Hx Hne]. unfold profiles_conflict. simpl.
      apply orb_false_iff. split.
      - apply N.eqb_neq. intros E.
        pose proof (profile_has_identity d x Hpm Hx) as Hrx. congruence.
      - destruct (same_username (Profiles.username x) (Some s)) eqn:Hu; [|reflexivity].
        assert (x = p).
        { apply (conflict_free_inj profiles_conflict profiles_conflict_sym
                   (profiles d)); auto.
          unfold profiles_conflict. rewrite Hp, same_username_sym, Hu.
          apply orb_true_r. }
        subst x. rewrite Hid, N.eqb_refl in Hne. discriminate. }
    rewrite Hc. simpl.
    unfold references_auth_users. simpl. rewrite existsb_app. simpl.
    rewrite N.eqb_refl, orb_true_r. reflexivity.
Qed.

Lemma username_freed_by_deletion_witness :
  create_identity (AuthUsers.mk 3%N (Some "alice@elsewhere.org") None) 9%Z
    Scenario.state = Err UniqueViolation /\
  exists d', create_identity (AuthUsers.mk 3%N (Some "alice@elsewhere.org") None) 9%Z
               (delete_identity Scenario.A Scenario.state) = Ok d'.
Proof.
  destruct (username_freed_by_deletion Scenario.state Scenario.A
              (Profiles.mk Scenario.A (Some "alice") None (Some 1%Z) (Some 1%Z)) "alice"
              (AuthUsers.mk 3%N (Some "alice@elsewhere.org") None) 9%Z)
    as [Hbefore Hafter].
  - apply reachable_run_all. apply reachable_empty.
  - simpl. auto.
  - reflexivity.
  - reflexivity.
  - reflexivity.
  - reflexivity.
  - split; [exact Hbefore | eexists; exact Hafter].
Defined.

(** ** Isolation between identities *)

Section OwnedRows.
Context {A : Type} (key owner : A -> uuid).

Lemma owned_rows_snoc (u : uuid) (r : A) (l : list A) :
  owner r <> u ->
  filter (fun x => N.eqb (owner x) u) (l ++ [r]) = filter (fun x => N.eqb (owner x) u) l.
Proof.
  intros Hne. rewrite filter_app. simpl.
  apply N.eqb_neq in Hne. rewrite Hne. apply app_nil_r.
Qed.

Lemma owned_rows_replace (u k : uuid) (r : A) (l : list A) :
  (forall x, In x l -> key x = k -> owner x <> u) ->
  owner r <> u ->
  filter (fun x => N.eqb (owner x) u)
    (map (fun x => if N.eqb (key x) k then r else x) l)
  = filter (fun x => N.eqb (owner x) u) l.
Proof.
  intros Hk Hr. induction l as [|a l IH]; simpl; [reflexivity|].
  rewrite IH by (intros x Hx; apply Hk; right; exact Hx).
  destruct (N.eqb_spec (key a) k) as [E|E]; [|reflexivity].
  apply N.eqb_neq in Hr. rewrite Hr.
  specialize (Hk a (or_introl eq_refl) E). apply N.eqb_neq in Hk. rewrite Hk.
  reflexivity.
Qed.

Lemma owned_rows_remove (u k : uuid) (l : list A) :
  (forall x, In x l -> key x = k -> owner x <> u) ->
  filter (fun x => N.eqb (owner x) u) (filter (fun x => negb (N.eqb (key x) k)) l)
  = filter (fun x => N.eqb (owner x) u) l.
Proof.
  intros Hk. induction l as [|a l IH]; simpl; [reflexivity|].
  rewrite <- IH by (intros x Hx; apply Hk; right; exact Hx).
  destruct (N.eqb_spec (key a) k) as [E|E]; simpl; [|reflexivity].
  specialize (Hk a (or_introl eq_refl) E). apply N.eqb_neq in Hk. rewrite Hk.
  reflexivity.
Qed.

Lemma only_row_under_key (k : uuid) (old x : A) (l : list A) :
  NoDup (map key l) ->
  find (fun y => N.eqb (key y) k) l = Some old ->
  In x l -> key x = k -> x = old.
Proof.
  intros Hnd Hf Hx Hk. apply find_id_eq in Hf. destruct Hf as [Hin Hko].
  apply (NoDup_keys_inj key l); auto. congruence.
Qed.
End OwnedRows.

(** X12: in a reachable state, whatever statement identity [v] issues, and
    whether it commits or fails, the rows of every other identity [u] are
    afterwards exactly what they were, in all three tables, and so is the
    set of identities. *)
Theorem other_identities_rows_untouched (s : stmt) (d : db) (v u : uuid) :
  reachable d ->
  stmt_caller s = Some (Authenticated v) ->
  u <> v ->
  profiles_of u (run s d) = profiles_of u d /\
  reviews_of u (run s d) = reviews_of u d /\
  list_items_of u (run s d) = list_items_of u d /\
  auth_users (run s d) = auth_users d.
Proof.
  intros Hr Hc Hne.
  destruct (reachable_primary_keys_unique d Hr) as [Hnr Hnl].
  assert (Hvu : v <> u) by congruence.
  unfold run. destruct (exec s d) as [d'|e] eqn:E; simpl; [|auto].
  unfold profiles_of, reviews_of, list_items_of.
  destruct s; simpl in Hc; try discriminate; injection Hc as ->; simpl in E.
  - apply insert_profile_ok in E. destruct E as [Hc E]. injection Hc as Hc.
    apply store_profile_ok in E. destruct E as [_ [_ ->]]. simpl.
    rewrite (owned_rows_snoc Profiles.id) by congruence. auto.
  - apply update_profile_ok in E. destruct E as [Hc [Hid [_ [_ ->]]]].
    injection Hc as Hc. simpl.
    rewrite (owned_rows_replace Profiles.id Profiles.id); auto; congruence.
  - destruct (delete_profile_fails (Authenticated v) pid d) as [e He]. congruence.
  - apply insert_review_ok in E. destruct E as [Hc [_ [_ [_ ->]]]].
    injection Hc as Hc. simpl.
    rewrite (owned_rows_snoc Reviews.user_id) by congruence. auto.
  - apply update_review_ok in E.
    destruct E as [Hc [_ [[old [Hf Ho]] [_ [_ ->]]]]]. injection Hc as Hc. simpl.
    rewrite (owned_rows_replace Reviews.id Reviews.user_id); auto; [|congruence].
    intros x Hx Hk.
    rewrite (only_row_under_key Reviews.id rid old x _ Hnr Hf Hx Hk). congruence.
  - apply delete_review_ok in E. destruct E as [[old [Hf Hc]] ->].
    injection Hc as Hc. simpl.
    rewrite (owned_rows_remove Reviews.id Reviews.user_id); auto.
    intros x Hx Hk.
    rewrite (only_row_under_key Reviews.id rid old x _ Hnr Hf Hx Hk). congruence.
  - apply insert_list_item_ok in E. destruct E as [Hc [_ [_ [_ ->]]]].
    injection Hc as Hc. simpl.
    rewrite (owned_rows_snoc UserLists.user_id) by congruence. auto.
  - destruct (update_list_item_owner _ _ _ _ _ E) as [old [Hf [Hc Ho]]].
    injection Hc as Hc.
    apply update_list_item_ok in E. destruct E as [_ [_ [_ [_ [_ ->]]]]]. simpl.
    rewrite (owned_rows_replace UserLists.id UserLists.user_id); auto; [|congruence].
    intros x Hx Hk.
    rewrite (only_row_under_key UserLists.id lid old x _ Hnl Hf Hx Hk). congruence.
  - destruct (delete_list_item_owner _ _ _ _ E) as [old [Hf Hc]].
    injection Hc as Hc.
    apply delete_list_item_ok in E. subst d'. simpl.
    rewrite (owned_rows_remove UserLists.id UserLists.user_id); auto.
    intros x Hx Hk.
    rewrite (only_row_under_key UserLists.id lid old x _ Hnl Hf Hx Hk). congruence.
Qed.

Lemma other_identities_rows_untouched_witness :
  reviews_of Scenario.A
    (run (DeleteReview (Authenticated Scenario.B) 10%N) Scenario.state)
  = reviews_of Scenario.A Scenario.state.
Proof.
  apply (other_identities_rows_untouched
           (DeleteReview (Authenticated Scenario.B) 10%N) Scenario.state
           Scenario.B Scenario.A).
  - apply reachable_run_all. apply reachable_empty.
  - reflexivity.
  - discriminate.
Defined.

(** ** Profiles *)

Lemma map_key_replace {A : Type} (key : A -> uuid) (k : uuid) (r : A) (l : list A) :
  key r = k ->
  map key (map (fun x => if N.eqb (key x) k then r else x) l) = map key l.
Proof.
  intros Hr. induction l as [|a l IH]; simpl; [reflexivity|].
  rewrite IH. destruct (N.eqb_spec (key a) k); congruence.
Qed.

(** X13: profiles come and go with identities only.  In a reachable state
    no insert into [profiles] issued through the API commits (the identity's
    profile is there already, or there is no such identity), no delete
    commits (the table has no DELETE policy), and whatever an API caller
    issues, the ids of the stored profiles are afterwards the same, in the
    same order; and every stored profile is an existing identity's. *)
Theorem api_leaves_profile_ids (d : db) :
  reachable d ->
  (forall c p, exists e, insert_profile c p d = Err e) /\
  (forall c pid, exists e, delete_profile c pid d = Err e) /\
  (forall s c, stmt_caller s = Some c ->
     map Profiles.id (profiles (run s d)) = map Profiles.id (profiles d)) /\
  (forall p, In p (profiles d) -> references_auth_users (Profiles.id p) d = true).
Proof.
  intros Hr. pose proof (reachable_profiles_match d Hr) as Inv.
  assert (Hins : forall c p, exists e, insert_profile c p d = Err e).
  { intros c p. destruct (insert_profile c p d) as [d'|e] eqn:E; [|eauto].
    apply insert_profile_ok in E. destruct E as [_ E].
    apply store_profile_ok in E. destruct E as [Hc [Hfk _]].
    apply no_conflict_no_profile in Hc.
    specialize (Inv (Profiles.id p)). unfold profile_count in Inv.
    rewrite (filter_key_absent Profiles.id _ _ Hc), Hfk in Inv. discriminate. }
  split; [exact Hins|]. split; [intros c pid; apply delete_profile_fails|].
  split; [|intros p Hp; apply profile_has_identity; assumption].
  intros s c Hc. unfold run.
  destruct (exec s d) as [d'|e] eqn:E; simpl; [|reflexivity].
  destruct s; simpl in Hc; try discriminate; simpl in E.
  - destruct (Hins c0 r) as [e He]. congruence.
  - apply update_profile_ok in E. destruct E as [_ [Hid [_ [_ ->]]]]. simpl.
    apply map_key_replace. exact Hid.
  - destruct (delete_profile_fails c0 pid d) as [e He]. congruence.
  - apply insert_review_ok in E. destruct E as [_ [_ [_ [_ ->]]]]. reflexivity.
  - apply update_review_ok in E. destruct E as [_ [_ [_ [_ [_ ->]]]]]. reflexivity.
  - apply delete_review_ok in E. destruct E as [_ ->]. reflexivity.
  - apply insert_list_item_ok in E. destruct E as [_ [_ [_ [_ ->]]]]. reflexivity.
  - apply update_list_item_ok in E. destruct E as [_ [_ [_ [_ [_ ->]]]]]. reflexivity.
  - apply delete_list_item_ok in E. subst d'. reflexivity.
Qed.

Lemma api_leaves_profile_ids_witness :
  (exists e, insert_profile (Authenticated Scenario.A)
               (Profiles.mk Scenario.A (Some "al") None None None) Scenario.state
             = Err e) /\
  (exists e, delete_profile (Authenticated Scenario.A) Scenario.A Scenario.state
             = Err e).
Proof.
  destruct (api_leaves_profile_ids Scenario.state) as [Hi [Hd _]].
  - apply reachable_run_all. apply reachable_empty.
  - split; [apply Hi | apply Hd].
Defined.

(** X14: the owner's hold on a profile.  Any signed-in caller can read a
    stored profile; an update of it by another identity touches no row, with
    the outcome of an update on a missing id, and leaves the database as it
    was; the owner's update to a username that another
    profile carries fails with [UniqueViolation]; and in a reachable state
    the owner's update to a row with the same id and a username no other
    profile carries commits, after which everyone signed in reads the new
    row. *)
Theorem profile_update_policy (d : db) (u : uuid) (old new : Profiles.row) :
  find_profile u d = Some old ->
  (forall v, read_profile (Authenticated v) u d = Ok old) /\
  (forall v, v <> u ->
     update_profile (Authenticated v) u new d = Err NotFound /\
     run (UpdateProfile (Authenticated v) u new) d = d) /\
  (Profiles.id new = u ->
   (exists other s, In other (profiles d) /\ Profiles.id other <> u /\
                    Profiles.username other = Some s /\
                    Profiles.username new = Some s) ->
   update_profile (Authenticated u) u new d = Err UniqueViolation) /\
  (reachable d ->
   Profiles.id new = u ->
   (forall x, In x (profiles d) -> Profiles.id x <> u ->
      same_username (Profiles.username x) (Profiles.username new) = false) ->
   exists d', update_profile (Authenticated u) u new d = Ok d' /\
              forall v, read_profile (Authenticated v) u d' = Ok new).
Proof.
  intros Hf.
  split; [|split; [|split]].
  - intros v. unfold read_profile. rewrite Hf. reflexivity.
  - intros v Hne.
    assert (E : update_profile (Authenticated v) u new d = Err NotFound).
    { unfold update_profile.
      rewrite Hf, rls_using_spec, is_owner_authenticated.
      destruct (find_id_eq Profiles.id u _ old Hf) as [_ ->].
      apply N.eqb_neq in Hne. rewrite Hne. reflexivity. }
    split; [exact E|]. unfold run; simpl. rewrite E. reflexivity.
  - intros Hid [other [s [Hin [Hne [Ho Hn]]]]]. unfold update_profile.
    rewrite Hf, rls_using_spec, rls_with_check_spec by auto.
    rewrite !is_owner_authenticated.
    destruct (find_id_eq Profiles.id u _ old Hf) as [_ ->].
    rewrite Hid, N.eqb_refl. simpl.
    rewrite (username_conflict new other s); auto.
    apply filter_In. split; [exact Hin|].
    apply negb_true_iff. apply N.eqb_neq. exact Hne.
  - intros Hr Hid Hfree.
    destruct (find_id_eq Profiles.id u _ old Hf) as [Hin Ho].
    assert (Hc : existsb (profiles_conflict new)
                   (filter (fun x => negb (N.eqb (Profiles.id x) u)) (profiles d))
                 = false).
    { apply existsb_false_forall. intros x Hx. apply filter_In in Hx.
      destruct Hx as [Hx Hne]. apply negb_true_iff in Hne.
      unfold profiles_conflict. rewrite Hid, Hne. simpl.
      apply Hfree; [exact Hx | apply N.eqb_neq; exact Hne]. }
    assert (Hfk : references_auth_users u d = true).
    { rewrite <- Ho. apply profile_has_identity; [|exact Hin].
      apply reachable_profiles_match. exact Hr. }
    eexists. split.
    + unfold update_profile.
      rewrite Hf, rls_using_spec, rls_with_check_spec by auto.
      rewrite !is_owner_authenticated, Ho, Hid, N.eqb_refl, Hc, Hfk. reflexivity.
    + intros v. unfold read_profile, find_profile in *. simpl.
      assert (Hfind :
        find (fun x => N.eqb (Profiles.id x) (Profiles.id new))
          (map (fun x => if N.eqb (Profiles.id x) u then new else x) (profiles d))
        = Some new).
      { apply (find_replaced Profiles.id u new old); [exact Hf|].
        rewrite Hid. apply existsb_false_forall. intros x Hx.
        apply filter_In in Hx. destruct Hx as [_ Hne].
        apply negb_true_iff in Hne. exact Hne. }
      rewrite Hid in Hfind. rewrite Hfind. reflexivity.
Qed.

Lemma profile_update_policy_witness :
  update_profile (Authenticated Scenario.B) Scenario.A
    (Profiles.mk Scenario.A (Some "al") None None None) Scenario.state
    = Err NotFound /\
  update_profile (Authenticated Scenario.A) Scenario.A
    (Profiles.mk Scenario.A (Some "bobby") None None None) Scenario.state
    = Err UniqueViolation /\
  exists d', update_profile (Authenticated Scenario.A) Scenario.A
               (Profiles.mk Scenario.A (Some "al") None None None) Scenario.state
             = Ok d'.
Proof.
  destruct (profile_update_policy Scenario.state Scenario.A
              (Profiles.mk Scenario.A (Some "alice") None (Some 1%Z) (Some 1%Z))
              (Profiles.mk Scenario.A (Some "al") None None None) eq_refl)
    as [_ [Hden [_ Hok]]].
  destruct (profile_update_policy Scenario.state Scenario.A
              (Profiles.mk Scenario.A (Some "alice") None (Some 1%Z) (Some 1%Z))
              (Profiles.mk Scenario.A (Some "bobby") None None None) eq_refl)
    as [_ [_ [Hdup _]]].
  split; [|split].
  - apply Hden. discriminate.
  - apply Hdup; [reflexivity|].
    exists (Profiles.mk Scenario.B (Some "bobby") None (Some 2%Z) (Some 2%Z)), "bobby".
    simpl. repeat split; auto. discriminate.
  - destruct Hok as [d' [Hd' _]].
    + apply reachable_run_all. apply reachable_empty.
    + reflexivity.
    + intros x [<- | [<- | []]] Hne; [contradiction Hne; reflexivity | reflexivity].
    + exists d'. exact Hd'.
Defined.

(** ** Edge cases of the derived username *)

Lemma split_fields_whole (ch : ascii) (s : string) :
  free_of ch s = true -> split_fields ch s = [s].
Proof.
  induction s as [|x s IH]; simpl; intros H; [reflexivity|].
  apply andb_true_iff in H. destruct H as [Hx Hs].
  apply negb_true_iff in Hx. rewrite Hx, (IH Hs). reflexivity.
Qed.

(** X15: [handle_new_user] on unusual identities with no usable metadata
    username.  An email without [@] becomes the username whole; an email
    that starts with [@] gives the empty username, which is a value and not
    NULL; and a metadata username that is a JSON null counts as absent, so
    the email decides. *)
Theorem derived_username_edge_cases (NEW : AuthUsers.row) :
  (forall e,
     json_get_text (AuthUsers.raw_user_meta_data NEW) "username" = None ->
     AuthUsers.email NEW = Some e -> free_of "@"%char e = true ->
     derived_username NEW = Some e) /\
  (forall rest,
     json_get_text (AuthUsers.raw_user_meta_data NEW) "username" = None ->
     AuthUsers.email NEW = Some (String "@"%char rest) ->
     derived_username NEW = Some EmptyString) /\
  (forall members more,
     AuthUsers.raw_user_meta_data NEW = Some (members ++ ("username", None) :: more) ->
     existsb (fun kv => String.eqb (fst kv) "username") members = false ->
     derived_username NEW = split_part (AuthUsers.email NEW) "@"%char 1).
Proof.
  split; [|split].
  - intros e Hm He Hfree. unfold derived_username. rewrite Hm, He. simpl.
    rewrite (split_fields_whole _ e Hfree). reflexivity.
  - intros rest Hm He. unfold derived_username. rewrite Hm, He. reflexivity.
  - intros members more Hm Hfree. unfold derived_username, json_get_text.
    rewrite Hm.
    assert (Hfind : find (fun kv : string * option string =>
                            String.eqb (fst kv) "username")
                      (members ++ ("username", None) :: more)
                    = Some ("username", None)).
    { clear Hm. induction members as [|a members IH]; simpl; [reflexivity|].
      simpl in Hfree. apply orb_false_iff in Hfree. destruct Hfree as [-> Hfree].
      auto. }
    rewrite Hfind. reflexivity.
Qed.

Lemma derived_username_edge_cases_witness :
  derived_username (AuthUsers.mk 5%N (Some "root") None) = Some "root" /\
  derived_username (AuthUsers.mk 5%N (Some "@example.com") None) = Some "" /\
  derived_username
    (AuthUsers.mk 5%N (Some "carol@example.com")
       (Some [("plan", Some "free"); ("username", None)]))
  = Some "carol".
Proof.
  split; [|split].
  - apply (proj1 (derived_username_edge_cases (AuthUsers.mk 5%N (Some "root") None)));
      reflexivity.
  - apply (proj1 (proj2 (derived_username_edge_cases
                           (AuthUsers.mk 5%N (Some "@example.com") None))) "example.com");
      reflexivity.
  - rewrite (proj2 (proj2 (derived_username_edge_cases
               (AuthUsers.mk 5%N (Some "carol@example.com")
                  (Some [("plan", Some "free"); ("username", None)]))))
               [("plan", Some "free")] []); reflexivity.
Defined.

(** * The pages that write to the tables *)

Lemma text_or_null_none (s : string) : text_or_null s = None <-> s = "".
Proof.
  unfold text_or_null. destruct (String.eqb_spec s ""); split; congruence.
Qed.

Lemma not_signed_in_false (user : bool) (session : option Session) :
  not_signed_in user session = false ->
  user = true /\ exists s, session = Some s /\ access_token s <> "".
Proof.
  unfold not_signed_in. intros H. apply orb_false_iff in H. destruct H as [Hu Hs].
  apply negb_false_iff in Hu. split; [exact Hu|].
  destruct session as [s|]; [|discriminate].
  exists s. split; [reflexivity|]. apply String.eqb_neq. exact Hs.
Qed.

(** X16: the review form sends a request only when a media item is chosen,
    a star rating is picked, and there is a user with a non-empty token.
    The posted rating is twice the stars: for the one to five stars the form
    offers it is an even number from 2 to 10 and passes the table's rating
    CHECK, so no odd rating comes from this form.  An empty review text is
    posted as null. *)
Theorem review_form_request
    (media : option ReviewsPage.MediaItem) (rating : Z) (user : bool)
    (session : option Session) (reviewText token : string) (b : ReviewsPage.body) :
  ReviewsPage.handleSubmit media rating user session reviewText
    = ReviewsPage.PostReview token b ->
  (exists m, media = Some m /\
             ReviewsPage.body_media_id b = ReviewsPage.id m /\
             ReviewsPage.body_media_type b
               = ReviewsPage.media_type_text (ReviewsPage.item_type m)) /\
  rating <> 0%Z /\ user = true /\ session = Some (mkSession token) /\ token <> "" /\
  ReviewsPage.body_rating b = (2 * rating)%Z /\
  (In rating ReviewsPage.stars ->
     rating_check (ReviewsPage.body_rating b) = true /\
     Z.even (ReviewsPage.body_rating b) = true) /\
  (ReviewsPage.body_review_text b = None <-> reviewText = "").
Proof.
  unfold ReviewsPage.handleSubmit. intros H.
  destruct media as [m|]; [|discriminate].
  destruct (Z.eqb_spec rating 0) as [Hz|Hz]; [discriminate|].
  destruct (not_signed_in user session) eqn:Hs; [discriminate|].
  apply not_signed_in_false in Hs. destruct Hs as [Hu [s [-> Ht]]].
  injection H as <- <-. destruct s as [t].
  cbn [ReviewsPage.body_media_id ReviewsPage.body_media_type ReviewsPage.body_rating
       ReviewsPage.body_review_text access_token] in *.
  split; [exists m; auto|].
  split; [exact Hz|]. split; [exact Hu|]. split; [reflexivity|]. split; [exact Ht|].
  split; [lia|]. split; [|apply text_or_null_none].
  intros Hin. unfold ReviewsPage.stars in Hin.
  destruct Hin as [<- | [<- | [<- | [<- | [<- | []]]]]]; split; reflexivity.
Qed.

Lemma review_form_request_witness :
  exists b, ReviewsPage.handleSubmit
              (Some (ReviewsPage.mkMedia "27205" ReviewsPage.movie)) 4%Z true
              (Some (mkSession "jwt")) "" = ReviewsPage.PostReview "jwt" b /\
            ReviewsPage.body_rating b = 8%Z /\
            ReviewsPage.body_review_text b = None.
Proof.
  eexists. split; [reflexivity|].
  destruct (review_form_request
              (Some (ReviewsPage.mkMedia "27205" ReviewsPage.movie)) 4%Z true
              (Some (mkSession "jwt")) "" "jwt" _ eq_refl)
    as [_ [_ [_ [_ [_ [Hr [_ Ht]]]]]]].
  split; [exact Hr | apply Ht; reflexivity].
Defined.

(** X17: the media type the review form posts against the table's CHECK.
    The form never posts "show"; for a movie or a book the posted media
    type is in the table's enumeration, but for a TV show it is "tv", which
    is not: a review row that carries the posted media type of a TV show is
    rejected with [CheckViolation] when its owner inserts it. *)
Theorem review_form_media_type
    (m : ReviewsPage.MediaItem) (rating : Z) (user : bool)
    (session : option Session) (reviewText token : string) (b : ReviewsPage.body) :
  ReviewsPage.handleSubmit (Some m) rating user session reviewText
    = ReviewsPage.PostReview token b ->
  ReviewsPage.body_media_type b <> "show" /\
  (media_type_check (ReviewsPage.body_media_type b) = true
   <-> ReviewsPage.item_type m <> ReviewsPage.tv) /\
  (ReviewsPage.item_type m = ReviewsPage.tv ->
   forall (d : db) (u : uuid) (r : Reviews.row),
     Reviews.user_id r = u ->
     Reviews.media_type r = ReviewsPage.body_media_type b ->
     insert_review (Authenticated u) r d = Err CheckViolation).
Proof.
  unfold ReviewsPage.handleSubmit. intros H.
  destruct (rating =? 0)%Z; [discriminate|].
  destruct (not_signed_in user session); [discriminate|].
  destruct session as [s|]; [|discriminate].
  injection H as _ <-. simpl.
  split; [|split].
  - destruct (ReviewsPage.item_type m); discriminate.
  - destruct (ReviewsPage.item_type m); simpl; split; intros H;
      try reflexivity; try discriminate; congruence.
  - intros Htv d u r Hu Hm. rewrite Htv in Hm. simpl in Hm.
    unfold insert_review. rewrite rls_with_check_spec by auto.
    rewrite is_owner_authenticated, Hu, N.eqb_refl.
    unfold reviews_check. rewrite Hm. reflexivity.
Qed.

Lemma review_form_media_type_witness :
  exists b,
    ReviewsPage.handleSubmit (Some (ReviewsPage.mkMedia "1399" ReviewsPage.tv)) 5%Z
      true (Some (mkSession "jwt")) "great" = ReviewsPage.PostReview "jwt" b /\
    insert_review (Authenticated Scenario.A)
      (Reviews.mk 12%N Scenario.A (ReviewsPage.body_media_type b) "1399" 10%Z
         (Some "great") None None) Scenario.state
    = Err CheckViolation.
Proof.
  eexists. split; [reflexivity|].
  apply (proj2 (proj2 (review_form_media_type
                         (ReviewsPage.mkMedia "1399" ReviewsPage.tv) 5%Z true
                         (Some (mkSession "jwt")) "great" "jwt" _ eq_refl)));
    reflexivity.
Defined.

(** X18: the book page adds to a list only for a user with a non-empty
    token and a loaded book.  What it posts always passes the CHECK
    constraints of [user_lists]: the list type is favorites or reading_list
    (never watchlist or completed) and the media type is book; the media id
    and title are the book's. *)
Theorem book_page_request
    (t : BookPage.listType) (user : bool) (session : option Session)
    (details : option BookPage.BookDetails) (token : string) (b : BookPage.body) :
  BookPage.handleAddToList t user session details = BookPage.AddToList token b ->
  user = true /\ session = Some (mkSession token) /\ token <> "" /\
  (exists book, details = Some book /\
                BookPage.body_media_id b = BookPage.id book /\
                BookPage.body_title b = BookPage.title book) /\
  (BookPage.body_list_type b = "favorites" \/
   BookPage.body_list_type b = "reading_list") /\
  BookPage.body_media_type b = "book" /\
  (forall l : UserLists.row,
     UserLists.list_type l = BookPage.body_list_type b ->
     UserLists.media_type l = BookPage.body_media_type b ->
     user_lists_check l = true).
Proof.
  unfold BookPage.handleAddToList. intros H.
  destruct (not_signed_in user session) eqn:Hs; [discriminate|].
  apply not_signed_in_false in Hs. destruct Hs as [Hu [s [-> Ht]]].
  destruct details as [book|]; [|discriminate].
  injection H as <- <-. destruct s as [tok]. simpl in *.
  split; [exact Hu|]. split; [reflexivity|]. split; [exact Ht|].
  split; [exists book; auto|].
  split; [destruct t; auto|]. split; [reflexivity|].
  intros l Hl Hm. unfold user_lists_check. rewrite Hl, Hm.
  destruct t; reflexivity.
Qed.

Lemma book_page_request_witness :
  exists b, BookPage.handleAddToList BookPage.reading_list true
              (Some (mkSession "jwt"))
              (Some (BookPage.mkBook "OL45804W" "Fantastic Mr Fox" None))
            = BookPage.AddToList "jwt" b /\
            BookPage.body_media_type b = "book".
Proof.
  eexists. split; [reflexivity|].
  apply (book_page_request BookPage.reading_list true (Some (mkSession "jwt"))
           (Some (BookPage.mkBook "OL45804W" "Fantastic Mr Fox" None)) "jwt" _ eq_refl).
Defined.

(** X19: the sign-up form calls [signUp] exactly when the two passwords are
    equal and at least six code units long; a mismatch is reported before
    the length is looked at; and the sign-in form passes whatever was typed
    on to [signIn]. *)
Theorem signup_form_validation (email password confirmPassword : AuthPage.js_string) :
  (AuthPage.handleSubmit false email password confirmPassword
     = AuthPage.SignUp email password
   <-> password = confirmPassword /\ 6 <= List.length password) /\
  (password <> confirmPassword ->
   AuthPage.handleSubmit false email password confirmPassword
     = AuthPage.ShowError "Passwords do not match") /\
  (password = confirmPassword -> List.length password < 6 ->
   AuthPage.handleSubmit false email password confirmPassword
     = AuthPage.ShowError "Password must be at least 6 characters") /\
  AuthPage.handleSubmit true email password confirmPassword
    = AuthPage.SignIn email password.
Proof.
  unfold AuthPage.handleSubmit.
  destruct (list_eq_dec N.eq_dec password confirmPassword) as [E|E]; simpl;
    destruct (Nat.ltb_spec (List.length password) 6) as [L|L];
    repeat split; intros; try tauto; try discriminate; try lia.
Qed.

Lemma signup_form_validation_witness :
  AuthPage.handleSubmit false [97; 64; 98]%N [115; 51; 99; 114; 51]%N
    [115; 51; 99; 114; 51]%N
  = AuthPage.ShowError "Password must be at least 6 characters".
Proof.
  apply (proj1 (proj2 (proj2 (signup_form_validation [97; 64; 98]%N
                                [115; 51; 99; 114; 51]%N [115; 51; 99; 114; 51]%N)))).
  - reflexivity.
  - simpl. lia.
Defined.

(** ** The API base address *)

Lemma endsWith_slash_split (s : string) :
  Fetcher.endsWith_slash s = true ->
  s = (Fetcher.slice_0_minus_1 s ++ "/")%string.
Proof.
  induction s as [|ch s IH]; simpl; [discriminate|].
  destruct s as [|ch' s'].
  - intros H. apply Ascii.eqb_eq in H. subst ch. reflexivity.
  - intros H. simpl. f_equal. apply IH. exact H.
Qed.

Lemma slice_after_slash (s : string) :
  Fetcher.slice_0_minus_1 (s ++ "/")%string = s /\
  Fetcher.endsWith_slash (s ++ "/")%string = true.
Proof.
  induction s as [|ch s [IH1 IH2]]; simpl; [auto|].
  destruct (s ++ "/")%string as [|ch' s'] eqn:E.
  - destruct s; discriminate.
  - rewrite IH1. auto.
Qed.

Lemma append_assoc (a b c : string) : ((a ++ b) ++ c = a ++ (b ++ c))%string.
Proof. induction a as [|ch a IH]; simpl; [reflexivity | rewrite IH; reflexivity]. Qed.

(** X20: the base address the fetch helpers use.  An unset or empty
    environment variable gives the default address.  Otherwise the
    configured address is taken as it is or, when it ends with a slash,
    without that one slash; so the base address still ends with a slash
    exactly when the configured one ended with two. *)
Theorem api_url_trailing_slash (env : option string) :
  (env = None \/ env = Some "" -> Fetcher.API_URL env = "http://127.0.0.1:8000") /\
  (Fetcher.rawApiUrl env = Fetcher.API_URL env \/
   Fetcher.rawApiUrl env = (Fetcher.API_URL env ++ "/")%string) /\
  (Fetcher.endsWith_slash (Fetcher.API_URL env) = true
   <-> exists x, Fetcher.rawApiUrl env = (x ++ "//")%string).
Proof.
  split; [|split].
  - intros [-> | ->]; reflexivity.
  - unfold Fetcher.API_URL.
    destruct (Fetcher.endsWith_slash (Fetcher.rawApiUrl env)) eqn:E; [|auto].
    right. apply endsWith_slash_split. exact E.
  - unfold Fetcher.API_URL.
    destruct (Fetcher.endsWith_slash (Fetcher.rawApiUrl env)) eqn:E; split.
    + intros H. exists (Fetcher.slice_0_minus_1 (Fetcher.slice_0_minus_1
                                                  (Fetcher.rawApiUrl env))).
      rewrite (endsWith_slash_split _ E) at 1.
      rewrite (endsWith_slash_split _ H) at 1.
      apply append_assoc.
    + intros [x Hx]. rewrite Hx.
      change (x ++ "//")%string with (x ++ ("/" ++ "/"))%string.
      rewrite <- append_assoc.
      rewrite (proj1 (slice_after_slash (x ++ "/")%string)).
      apply slice_after_slash.
    + intros H. congruence.
    + intros [x Hx]. rewrite Hx in E.
      change (x ++ "//")%string with (x ++ ("/" ++ "/"))%string in E.
      rewrite <- append_assoc in E.
      rewrite (proj2 (slice_after_slash (x ++ "/")%string)) in E. discriminate.
Qed.

Lemma api_url_trailing_slash_witness :
  Fetcher.API_URL (Some "") = "http://127.0.0.1:8000" /\
  Fetcher.endsWith_slash (Fetcher.API_URL (Some "https://api.example.org//")) = true.
Proof.
  split.
  - apply (proj1 (api_url_trailing_slash (Some ""))). right. reflexivity.
  - apply (proj2 (proj2 (api_url_trailing_slash (Some "https://api.example.org//")))).
    exists "https://api.example.org". reflexivity.
Defined.

(** ** The movie fields of the recommendation form *)

Lemma ids_after_remove (k n : nat) (movies : list RecommendPage.Movie) :
  map RecommendPage.id movies = seq 1 n ->
  map RecommendPage.id
    (filter (fun m => negb (Nat.eqb (RecommendPage.id m) k)) movies)
  = filter (fun i => negb (Nat.eqb i k)) (seq 1 n).
Proof.
  intros H. rewrite <- H. clear H.
  induction movies as [|m movies IH]; simpl; [reflexivity|].
  destruct (Nat.eqb (RecommendPage.id m) k); simpl; congruence.
Qed.

Lemma length_filter_one_out (k start n : nat) :
  start <= k < start + n ->
  List.length (filter (fun i => negb (Nat.eqb i k)) (seq start n)) = n - 1.
Proof.
  revert start. induction n as [|n IH]; intros start Hk; [lia|].
  simpl. destruct (Nat.eqb_spec start k) as [E|E]; simpl.
  - rewrite all_rows_pass; [rewrite length_seq; lia|].
    intros x Hx. apply in_seq in Hx. apply negb_true_iff. apply Nat.eqb_neq. lia.
  - rewrite IH by lia. lia.
Qed.

Lemma titled_fields_under_id (k : nat) (v : string) (l : list RecommendPage.Movie) :
  count_occ Nat.eq_dec
    (map RecommendPage.id
       (filter (fun m => String.eqb (RecommendPage.title m) v)
          (RecommendPage.updateMovie k (RecommendPage.Title v) l))) k
  = count_occ Nat.eq_dec (map RecommendPage.id l) k.
Proof.
  induction l as [|a l IH]; simpl; [reflexivity|].
  destruct (Nat.eqb_spec (RecommendPage.id a) k) as [E|E]; simpl.
  - rewrite String.eqb_refl. simpl.
    destruct (Nat.eq_dec (RecommendPage.id a) k); [|contradiction].
    rewrite IH. reflexivity.
  - destruct (Nat.eq_dec (RecommendPage.id a) k); [contradiction|].
    destruct (String.eqb (RecommendPage.title a) v); simpl; [|exact IH].
    destruct (Nat.eq_dec (RecommendPage.id a) k); [contradiction | exact IH].
Qed.

(** X21: the ids of the movie fields.  A new field takes the number of
    fields plus one as its id, which is new as long as the ids are 1..n.
    Removing a field whose id is not the last and then adding a field
    gives the new field the id of the last one: the ids are no longer
    distinct, typing a title into one of the two sets it in both, removing
    one removes both, and a removal, which is guarded to leave at least one
    field, can then leave none, as it does from two fields. *)
Theorem movie_field_ids (n k : nat) (movies : list RecommendPage.Movie) :
  map RecommendPage.id movies = seq 1 n ->
  map RecommendPage.id (RecommendPage.addMovieField movies) = seq 1 (S n) /\
  (2 <= n -> 1 <= k < n ->
   let movies' :=
     RecommendPage.addMovieField (RecommendPage.removeMovieField k movies) in
   List.length movies' = n /\
   count_occ Nat.eq_dec (map RecommendPage.id movies') n = 2 /\
   ~ NoDup (map RecommendPage.id movies') /\
   (forall v,
      count_occ Nat.eq_dec
        (map RecommendPage.id
           (filter (fun m => String.eqb (RecommendPage.title m) v)
              (RecommendPage.updateMovie n (RecommendPage.Title v) movies'))) n = 2) /\
   List.length (RecommendPage.removeMovieField n movies') = n - 2) /\
  RecommendPage.removeMovieField 2
    (RecommendPage.addMovieField
       (RecommendPage.removeMovieField 1
          (RecommendPage.removeMovieField 3 RecommendPage.initial))) = [].
Proof.
  intros Hids.
  assert (Hlen : List.length movies = n)
    by (rewrite <- (length_map RecommendPage.id), Hids; apply length_seq).
  split; [|split; [|reflexivity]].
  - unfold RecommendPage.addMovieField. rewrite map_app, Hids, Hlen, seq_S.
    simpl. f_equal. f_equal. lia.
  - intros Hn Hk movies'.
    assert (Hrem : map RecommendPage.id (RecommendPage.removeMovieField k movies)
                   = filter (fun i => negb (Nat.eqb i k)) (seq 1 n)).
    { unfold RecommendPage.removeMovieField. rewrite Hlen.
      destruct (Nat.ltb_spec 1 n); [|lia]. apply ids_after_remove. exact Hids. }
    assert (Hlen1 : List.length (RecommendPage.removeMovieField k movies) = n - 1).
    { rewrite <- (length_map RecommendPage.id), Hrem.
      apply length_filter_one_out. lia. }
    assert (Hids' : map RecommendPage.id movies'
                    = filter (fun i => negb (Nat.eqb i k)) (seq 1 n) ++ [n]).
    { unfold movies', RecommendPage.addMovieField.
      rewrite map_app, Hrem, Hlen1. simpl. f_equal. f_equal. lia. }
    assert (Hcount : count_occ Nat.eq_dec (map RecommendPage.id movies') n = 2).
    { rewrite Hids', count_occ_app. simpl.
      destruct (Nat.eq_dec n n) as [_|]; [|contradiction].
      assert (Hin : In n (filter (fun i => negb (Nat.eqb i k)) (seq 1 n))).
      { apply filter_In. split; [apply in_seq; lia|].
        apply negb_true_iff. apply Nat.eqb_neq. lia. }
      assert (Hnd : NoDup (filter (fun i => negb (Nat.eqb i k)) (seq 1 n)))
        by (apply NoDup_filter; apply seq_NoDup).
      pose proof (proj1 (NoDup_count_occ Nat.eq_dec _) Hnd n) as Hle.
      pose proof (proj1 (count_occ_In Nat.eq_dec _ n) Hin) as Hge. lia. }
    split; [|split; [exact Hcount|split; [|split]]].
    + unfold movies', RecommendPage.addMovieField.
      rewrite length_app, Hlen1. simpl. lia.
    + intros Hnd.
      pose proof (proj1 (NoDup_count_occ Nat.eq_dec _) Hnd n). lia.
    + intros v. rewrite <- Hcount. apply titled_fields_under_id.
    + assert (Hlen' : List.length movies' = n).
      { unfold movies', RecommendPage.addMovieField.
        rewrite length_app, Hlen1. simpl. lia. }
      unfold RecommendPage.removeMovieField at 1. rewrite Hlen'.
      destruct (Nat.ltb_spec 1 n); [|lia].
      rewrite <- (length_map RecommendPage.id).
      assert (Hsplit : forall l : list RecommendPage.Movie,
                List.length (filter (fun m => negb (Nat.eqb (RecommendPage.id m) n)) l)
                + count_occ Nat.eq_dec (map RecommendPage.id l) n = List.length l).
      { induction l as [|a l IH]; simpl; [reflexivity|].
        destruct (Nat.eq_dec (RecommendPage.id a) n) as [E|E].
        - rewrite E, Nat.eqb_refl. simpl. lia.
        - apply Nat.eqb_neq in E. rewrite E. simpl. lia. }
      rewrite length_map. specialize (Hsplit movies'). lia.
Qed.

Lemma movie_field_ids_witness :
  ~ NoDup (map RecommendPage.id
             (RecommendPage.addMovieField
                (RecommendPage.removeMovieField 1 RecommendPage.initial))).
Proof.
  apply (proj1 (proj2 (movie_field_ids 3 1 RecommendPage.initial eq_refl))); lia.
Defined.
